(** * colossalai/initialize.py: the engine assembler [initialize]

    A shallow embedding of [initialize] (colossalai/initialize.py, lines
    220-378) and of the data it works on.

    - The configuration [gpc.config] is a Python dict whose sections are
      dicts again.  Dicts are mutable objects: the sections live in a store
      of dict objects and are passed around by reference, so that
      [fp16_cfg.copy()] followed by [cfg_.pop('mode')] is a write to a new
      object and not to the shared one.
    - [initialize] runs in a state-and-exception monad over the process
      state: the store, the flags it assigns, and the sequence of calls
      made to the collaborators.
    - The collaborators that [initialize] calls but that live in other
      modules ([convert_to_amp], [convert_to_zero], [build_gradient_handler],
      [accumulate_gradient], [ColossalaiOptimizer], torch's
      [DistributedDataParallel]) are taken as parameters: every theorem
      holds for whatever they return.  They return, and they read the store
      they are handed without writing to it.  Calls to the logger are not
      modelled. *)

From Stdlib Require Import ZArith QArith.
From stdpp Require Import base option strings list gmap.

Local Open Scope string_scope.
Local Open Scope Z_scope.
Local Open Scope list_scope.

(** ** Python values *)

Definition loc := positive.

(** The values a configuration holds.  A float is the rational it denotes
    (a finite one: no nan, no infinity); an enum member such as
    [AMP_TYPE.NAIVE] is its class and member name; a dict is a reference
    into the store. *)
#[warnings="-register-all"]
Inductive value :=
  | VNone
  | VBool (b : bool)
  | VInt (n : Z)
  | VFloat (q : Q)
  | VStr (s : string)
  | VEnum (cls member : string)
  | VList (l : list value)
  | VRef (l : loc).

Inductive exn :=
  | ConfigException (msg : string)
  | AttributeError (name : string)
  | KeyError (key : string)
  | TypeError (msg : string).

Inductive result (A : Type) :=
  | Ok (a : A)
  | Raise (e : exn).
Arguments Ok {A} a.
Arguments Raise {A} e.

(** [v is None] and [v is not None]. *)
Definition is_None (v : value) : bool :=
  match v with VNone => true | _ => false end.

Definition is_not_None (v : value) : bool := negb (is_None v).

(** [isinstance(v, list)]. *)
Definition isinstance_list (v : value) : bool :=
  match v with VList _ => true | _ => false end.

(** [v == n] for an int literal [n]: numbers compare by value, [True] and
    [False] are the ints 1 and 0, anything else is different from an int. *)
Definition py_eq_int (v : value) (n : Z) : bool :=
  match v with
  | VInt m => m =? n
  | VFloat q => Qeq_bool q (inject_Z n)
  | VBool b => (if b then 1 else 0) =? n
  | _ => false
  end.

(** [v == member] for an enum member: only the member itself is equal. *)
Definition py_eq_enum (v : value) (cls member : string) : bool :=
  match v with
  | VEnum c m => bool_decide (c = cls) && bool_decide (m = member)
  | _ => false
  end.

(** [v > 0]: defined on numbers, a [TypeError] otherwise. *)
Definition py_gt_zero (v : value) : result bool :=
  match v with
  | VInt m => Ok (0 <? m)
  | VFloat q => Ok (negb (Qle_bool q 0))
  | VBool b => Ok b
  | _ => Raise (TypeError "'>' not supported")
  end.

(** [type(v)] as it prints in a message. *)
Definition py_type (v : value) : string :=
  match v with
  | VNone => "<class 'NoneType'>"
  | VBool _ => "<class 'bool'>"
  | VInt _ => "<class 'int'>"
  | VFloat _ => "<class 'float'>"
  | VStr _ => "<class 'str'>"
  | VEnum c _ => "<enum '" +:+ c +:+ "'>"
  | VList _ => "<class 'list'>"
  | VRef _ => "<class 'colossalai.context.config.Config'>"
  end.

(** ** The store of dict objects *)

Abbreviation dict := (gmap string value).
Abbreviation store := (gmap loc dict).

(** [d.get(key, default)] *)
Definition dict_get (d : dict) (key : string) (default : value) : value :=
  match d !! key with Some v => v | None => default end.

(** Modelled from the spec: the class [Config] (colossalai.context) is not
    among the sources; section 4.1 gives it nested attribute-style access.
    Attribute access [v.name] on a value of the configuration: a section
    answers with the entry under that key; [hasattr] on line 271 relies on
    an absent key raising [AttributeError], and the other values of a
    configuration have no such attribute at all. *)
Definition getattr (h : store) (v : value) (name : string) : result value :=
  match v with
  | VRef l =>
      match h !! l with
      | Some d => match d !! name with
                  | Some x => Ok x
                  | None => Raise (AttributeError name)
                  end
      | None => Raise (AttributeError name)
      end
  | _ => Raise (AttributeError name)
  end.

(** ** Collaborators *)

(** The classes [initialize] tests its optimizer against with
    [isinstance]; [Class_Optimizer] stands for every other class of
    optimizer. *)
Inductive optimizer_class :=
  | Class_Optimizer
  | Class_ColossalaiOptimizer
  | Class_ZeroRedundancyOptimizer_Level_2
  | Class_ZeroRedundancyOptimizer_Level_3.

(** [isinstance(optimizer, (ZeroRedundancyOptimizer_Level_2,
    ZeroRedundancyOptimizer_Level_3))], line 311. *)
Definition isinstance_zero (c : optimizer_class) : bool :=
  match c with
  | Class_ZeroRedundancyOptimizer_Level_2
  | Class_ZeroRedundancyOptimizer_Level_3 => true
  | _ => false
  end.

(** [isinstance(optimizer, (ColossalaiOptimizer,
    ZeroRedundancyOptimizer_Level_2, ZeroRedundancyOptimizer_Level_3))],
    line 347. *)
Definition isinstance_colossalai_or_zero (c : optimizer_class) : bool :=
  match c with
  | Class_Optimizer => false
  | _ => true
  end.

(** Modelled from the spec: the enum [ParallelMode] (colossalai.context) is
    not among the sources; the topology has a data, a pipeline and a tensor
    group, and [initialize] names the first. *)
Inductive ParallelMode :=
  | ParallelMode_DATA
  | ParallelMode_PIPELINE
  | ParallelMode_TENSOR.

(** What [initialize] imports from the rest of the package and from torch.
    The objects are opaque; the functions are whatever the other modules
    implement.  A function that is handed a configuration section receives
    the store it points into. *)
Class Collaborators := {
  Model : Type;
  Optimizer : Type;
  Criterion : Type;
  Dataloader : Type;
  LrScheduler : Type;
  GradientHandler : Type;
  ProcessGroup : Type;
  class_of : Optimizer -> optimizer_class;
  gpc_get_group : ParallelMode -> ProcessGroup;
  convert_to_amp :
    store -> Model -> Optimizer -> Criterion -> value -> value ->
    Model * Optimizer * Criterion;
  convert_to_zero :
    store -> Model -> Optimizer -> value -> value -> Model * Optimizer;
  DDP : Model -> ProcessGroup -> Model;
  build_gradient_handler :
    store -> value -> Model -> Optimizer -> GradientHandler;
  ColossalaiOptimizer : Optimizer -> Optimizer;
  accumulate_gradient :
    Model -> Optimizer -> option Dataloader -> value ->
    option (list GradientHandler) -> option LrScheduler ->
    Optimizer * option Dataloader * option (list GradientHandler)
    * option LrScheduler
}.

Section Initialize.

Context {C : Collaborators}.

(** Modelled from the spec: the class [Engine] (colossalai.engine) is not
    among the sources.  The execution engine owns model, optimizer,
    criterion, gradient handlers and the clip-norm threshold; these are the
    keyword arguments of the constructor call on lines 370-376. *)
Record Engine := {
  engine_model : Model;
  engine_optimizer : Optimizer;
  engine_criterion : Criterion;
  engine_gradient_handlers : option (list GradientHandler);
  engine_clip_grad_norm : value
}.

(** The calls [initialize] makes, with their arguments. *)
Inductive call :=
  | Call_model_to_device (model : Model)
  | Call_sync_model_param_in_dp (model : Model)
  | Call_convert_to_amp (model : Model) (optimizer : Optimizer)
      (criterion : Criterion) (mode : value) (amp_config : value)
  | Call_convert_to_zero (model : Model) (optimizer : Optimizer)
      (level : value) (zero_config : value)
  | Call_DDP (model : Model)
  | Call_build_gradient_handler (cfg : value) (model : Model)
      (optimizer : Optimizer)
  | Call_ColossalaiOptimizer (optimizer : Optimizer)
  | Call_accumulate_gradient (model : Model) (optimizer : Optimizer)
      (dataloader : option Dataloader) (accumulate_size : value)
      (gradient_handlers : option (list GradientHandler))
      (lr_scheduler : option LrScheduler)
  | Call_Engine (engine : Engine).

(** ** Process state *)

(** What [initialize] reads and writes outside its own variables:
    - [heap]: the dict objects, among them the sections of the
      configuration;
    - [gpc_config]: the entries of [gpc.config];
    - [gpc_verbose]: the flag [gpc.verbose];
    - [cudnn_benchmark], [cudnn_deterministic]: the two flags of
      [torch.backends.cudnn];
    - [is_using_ddp], [is_using_pp]: what the two topology predicates
      [is_using_ddp()] and [is_using_pp()] of colossalai.utils, which are
      not among the sources, answer in this process;
    - [calls]: the calls made so far, oldest first. *)
Record world := {
  heap : store;
  gpc_config : dict;
  gpc_verbose : bool;
  cudnn_benchmark : value;
  cudnn_deterministic : value;
  is_using_ddp : bool;
  is_using_pp : bool;
  calls : list call
}.

Definition set_heap (h : store) (w : world) : world :=
  {| heap := h; gpc_config := gpc_config w; gpc_verbose := gpc_verbose w;
     cudnn_benchmark := cudnn_benchmark w;
     cudnn_deterministic := cudnn_deterministic w;
     is_using_ddp := is_using_ddp w; is_using_pp := is_using_pp w;
     calls := calls w |}.

Definition set_gpc_verbose (b : bool) (w : world) : world :=
  {| heap := heap w; gpc_config := gpc_config w; gpc_verbose := b;
     cudnn_benchmark := cudnn_benchmark w;
     cudnn_deterministic := cudnn_deterministic w;
     is_using_ddp := is_using_ddp w; is_using_pp := is_using_pp w;
     calls := calls w |}.

Definition set_cudnn (benchmark deterministic : value) (w : world) : world :=
  {| heap := heap w; gpc_config := gpc_config w; gpc_verbose := gpc_verbose w;
     cudnn_benchmark := benchmark;
     cudnn_deterministic := deterministic;
     is_using_ddp := is_using_ddp w; is_using_pp := is_using_pp w;
     calls := calls w |}.

Definition add_call (c : call) (w : world) : world :=
  {| heap := heap w; gpc_config := gpc_config w; gpc_verbose := gpc_verbose w;
     cudnn_benchmark := cudnn_benchmark w;
     cudnn_deterministic := cudnn_deterministic w;
     is_using_ddp := is_using_ddp w; is_using_pp := is_using_pp w;
     calls := calls w ++ [c] |}.

(** ** The monad of [initialize]: state and exceptions *)

Definition M (A : Type) : Type := world -> world * result A.

Definition ret {A} (a : A) : M A := fun w => (w, Ok a).

Definition bind {A B} (m : M A) (k : A -> M B) : M B :=
  fun w =>
    match m w with
    | (w', Ok a) => k a w'
    | (w', Raise e) => (w', Raise e)
    end.

Definition raise {A} (e : exn) : M A := fun w => (w, Raise e).

Definition gets {A} (f : world -> A) : M A := fun w => (w, Ok (f w)).

Definition modify (f : world -> world) : M unit := fun w => (f w, Ok tt).

Definition lift {A} (f : world -> result A) : M A := fun w => (w, f w).

Definition record (c : call) : M unit := modify (add_call c).

Notation "'do' x <- m ; k" := (bind m (fun x => k))
  (at level 10, x name, m at level 100, k at level 200,
   format "'[v' 'do'  x  <-  m ; '/' k ']'").
Notation "'do' ' p <- m ; k" := (bind m (fun x => match x with p => k end))
  (at level 10, p strict pattern, m at level 100, k at level 200,
   format "'[v' 'do'  ' p  <-  m ; '/' k ']'").
Notation "m ;; k" := (bind m (fun _ => k))
  (at level 100, k at level 200, right associativity,
   format "'[v' m  ;; '/' k ']'").

(** [gpc.config.get(key, default)] *)
Definition config_get (key : string) (default : value) : M value :=
  gets (fun w => dict_get (gpc_config w) key default).

(** Modelled from the spec: attribute access on the [Config] object
    itself, as for its sections.  [gpc.config.name] is the entry under that
    key, [AttributeError] when there is none. *)
Definition config_getattr (d : dict) (name : string) : result value :=
  match d !! name with
  | Some v => Ok v
  | None => Raise (AttributeError name)
  end.

Definition config_attr (name : string) : M value :=
  lift (fun w => config_getattr (gpc_config w) name).

(** [hasattr(gpc.config, name)] *)
Definition config_hasattr (name : string) : M bool :=
  gets (fun w =>
    match config_getattr (gpc_config w) name with
    | Ok _ => true
    | Raise _ => false
    end).

(** [v.name] *)
Definition attr (v : value) (name : string) : M value :=
  lift (fun w => getattr (heap w) v name).

(** A new dict object with the given entries. *)
Definition alloc (d : dict) : M value :=
  fun w =>
    let l := fresh (dom (heap w)) in
    (set_heap (<[l := d]> (heap w)) w, Ok (VRef l)).

(** [v.copy()]: a dict gives a new dict object with the same entries, a
    list a list with the same elements; nothing else in a configuration has
    the method. *)
Definition copy (v : value) : M value :=
  match v with
  | VRef l =>
      do d <- lift (fun w =>
                match heap w !! l with
                | Some d => Ok d
                | None => Raise (AttributeError "copy")
                end);
      alloc d
  | VList l => ret (VList l)
  | _ => raise (AttributeError "copy")
  end.

(** [v.pop(key)] for a string key: on a dict the entry is removed from the
    object and returned, [KeyError] when there is none; [list.pop] wants an
    index. *)
Definition pop (v : value) (key : string) : M value :=
  match v with
  | VRef l =>
      fun w =>
        match heap w !! l with
        | Some d =>
            match d !! key with
            | Some x => (set_heap (<[l := delete key d]> (heap w)) w, Ok x)
            | None => (w, Raise (KeyError key))
            end
        | None => (w, Raise (AttributeError "pop"))
        end
  | VList _ =>
      raise (TypeError "'str' object cannot be interpreted as an integer")
  | _ => raise (AttributeError "pop")
  end.

(** ** Calls to the collaborators

    Each call is recorded and answers with what the collaborator
    returns. *)

Definition call_convert_to_amp (model : Model) (optimizer : Optimizer)
    (criterion : Criterion) (mode amp_config : value)
    : M (Model * Optimizer * Criterion) :=
  record (Call_convert_to_amp model optimizer criterion mode amp_config) ;;
  do h <- gets heap;
  ret (convert_to_amp h model optimizer criterion mode amp_config).

Definition call_convert_to_zero (model : Model) (optimizer : Optimizer)
    (level zero_config : value) : M (Model * Optimizer) :=
  record (Call_convert_to_zero model optimizer level zero_config) ;;
  do h <- gets heap;
  ret (convert_to_zero h model optimizer level zero_config).

Definition call_DDP (model : Model) : M Model :=
  record (Call_DDP model) ;;
  ret (DDP model (gpc_get_group ParallelMode_DATA)).

Definition call_build_gradient_handler (cfg : value) (model : Model)
    (optimizer : Optimizer) : M GradientHandler :=
  record (Call_build_gradient_handler cfg model optimizer) ;;
  do h <- gets heap;
  ret (build_gradient_handler h cfg model optimizer).

Definition call_ColossalaiOptimizer (optimizer : Optimizer) : M Optimizer :=
  record (Call_ColossalaiOptimizer optimizer) ;;
  ret (ColossalaiOptimizer optimizer).

Definition call_accumulate_gradient (model : Model) (optimizer : Optimizer)
    (dataloader : option Dataloader) (accumulate_size : value)
    (gradient_handlers : option (list GradientHandler))
    (lr_scheduler : option LrScheduler)
    : M (Optimizer * option Dataloader * option (list GradientHandler)
         * option LrScheduler) :=
  record (Call_accumulate_gradient model optimizer dataloader accumulate_size
            gradient_handlers lr_scheduler) ;;
  ret (accumulate_gradient model optimizer dataloader accumulate_size
         gradient_handlers lr_scheduler).

Definition call_Engine (model : Model) (optimizer : Optimizer)
    (criterion : Criterion) (gradient_handlers : option (list GradientHandler))
    (clip_grad_norm : value) : M Engine :=
  let engine :=
    {| engine_model := model; engine_optimizer := optimizer;
       engine_criterion := criterion;
       engine_gradient_handlers := gradient_handlers;
       engine_clip_grad_norm := clip_grad_norm |} in
  record (Call_Engine engine) ;;
  ret engine.

(** ** [initialize], step by step *)

Definition fp16_and_zero_message : string :=
  "It is not allowed to set fp16 and zero configuration in your config file at the same time".

Definition gradient_handler_message (gradient_handler_cfg : value) : string :=
  "expected gradient_handler in the configuration file to be a list but got "
  +:+ py_type gradient_handler_cfg.

Definition clip_with_zero_message : string :=
  "clip_grad_norm should be specified with zero, you should specify clip_grad in zero configuration".

Definition clip_with_naive_message : string :=
  "clip_grad_norm should be specified with AMP_TYPE.NAIVE, you should specify clip_grad in fp16 configuration".

(** Lines 261-264: the two cudnn flags. *)
Definition cudnn : M unit :=
  do cudnn_benchmark <- config_get "cudnn_benchmark" (VBool true);
  do cudnn_deterministic <- config_get "cudnn_deterministic" (VBool false);
  modify (set_cudnn cudnn_benchmark cudnn_deterministic).

(** Lines 269-273, [# first sync model across dp ranks]. *)
Definition sync_model (model : Model) : M unit :=
  record (Call_model_to_device model) ;;
  do use_zero3 <-
    (do has_zero <- config_hasattr "zero";
     if has_zero then
       do zero <- config_attr "zero";
       do level <- attr zero "level";
       ret (py_eq_int level 3)
     else ret false);
  if negb use_zero3 then record (Call_sync_model_param_in_dp model)
  else ret tt.

(** [fp16_cfg is not None and fp16_cfg.mode is not None], the test of
    lines 279 and 285; the attribute is read only when the section is
    there. *)
Definition fp16_mode_is_set (fp16_cfg : value) : M bool :=
  if is_not_None fp16_cfg then
    do mode <- attr fp16_cfg "mode";
    ret (is_not_None mode)
  else ret false.

(** Lines 279-281, [# check amp and zero]. *)
Definition check_amp_and_zero (fp16_cfg zero_cfg : value) : M unit :=
  do mode_set <- fp16_mode_is_set fp16_cfg;
  if mode_set && is_not_None zero_cfg
  then raise (ConfigException fp16_and_zero_message)
  else ret tt.

(** Lines 283-292, [# initialize amp]: the new [amp_mode], model, optimizer
    and criterion. *)
Definition initialize_amp (fp16_cfg : value) (model : Model)
    (optimizer : Optimizer) (criterion : Criterion)
    : M (value * Model * Optimizer * Criterion) :=
  do mode_set <- fp16_mode_is_set fp16_cfg;
  if mode_set then
    do cfg_ <- copy fp16_cfg;
    do amp_mode <- pop cfg_ "mode";
    do '(model, optimizer, criterion) <-
      call_convert_to_amp model optimizer criterion amp_mode cfg_;
    ret (amp_mode, model, optimizer, criterion)
  else ret (VNone, model, optimizer, criterion).

(** Lines 294-301: the new model and optimizer. *)
Definition initialize_zero (zero_cfg : value) (model : Model)
    (optimizer : Optimizer) : M (Model * Optimizer) :=
  if is_not_None zero_cfg then
    do cfg_ <- copy zero_cfg;
    do level <- pop cfg_ "level";
    call_convert_to_zero model optimizer level cfg_
  else ret (model, optimizer).

(** Line 344: one handler per element of the list, first to last. *)
Fixpoint build_gradient_handlers (cfgs : list value) (model : Model)
    (optimizer : Optimizer) : M (list GradientHandler) :=
  match cfgs with
  | [] => ret []
  | cfg :: cfgs =>
      do handler <- call_build_gradient_handler cfg model optimizer;
      do handlers <- build_gradient_handlers cfgs model optimizer;
      ret (handler :: handlers)
  end.

(** Lines 304-334, [# gradient handler]: the handler configuration that is
    in force, and the model, wrapped or not. *)
Definition resolve_gradient_handler_cfg (model : Model)
    (optimizer : Optimizer) (amp_mode : value) : M (Model * value) :=
  do gradient_handler_cfg <- config_get "gradient_handler" VNone;
  if is_None gradient_handler_cfg then
    if isinstance_zero (class_of optimizer) then
      do spec <- alloc {[ "type" := VStr "ZeROGradientHandler" ]};
      ret (model, VList [spec])
    else
      do using_ddp <- gets is_using_ddp;
      do using_pp <- gets is_using_pp;
      if using_ddp && negb using_pp
         && negb (py_eq_enum amp_mode "AMP_TYPE" "NAIVE")
      then
        do model <- call_DDP model;
        ret (model, gradient_handler_cfg)
      else if using_ddp then
        do spec <- alloc {[ "type" := VStr "DataParallelGradientHandler" ]};
        ret (model, VList [spec])
      else ret (model, gradient_handler_cfg)
  else
    if negb (isinstance_list gradient_handler_cfg)
    then raise (ConfigException (gradient_handler_message gradient_handler_cfg))
    else ret (model, gradient_handler_cfg).

(** Lines 336-344: [None], or the handlers built from the list (past line
    332 the configuration in force is [None] or a list). *)
Definition gradient_handlers_of (gradient_handler_cfg : value) (model : Model)
    (optimizer : Optimizer) : M (option (list GradientHandler)) :=
  match gradient_handler_cfg with
  | VNone => ret None
  | VList cfgs =>
      do handlers <- build_gradient_handlers cfgs model optimizer;
      ret (Some handlers)
  | _ => raise (TypeError "object is not iterable")
  end.

(** Lines 304-344 together. *)
Definition gradient_handler (model : Model) (optimizer : Optimizer)
    (amp_mode : value) : M (Model * option (list GradientHandler)) :=
  do '(model, gradient_handler_cfg) <-
    resolve_gradient_handler_cfg model optimizer amp_mode;
  do gradient_handlers <-
    gradient_handlers_of gradient_handler_cfg model optimizer;
  ret (model, gradient_handlers).

(** Lines 347-348, [# check if optimizer is ColossalaiOptimizer]. *)
Definition check_optimizer (optimizer : Optimizer) : M Optimizer :=
  if negb (isinstance_colossalai_or_zero (class_of optimizer))
  then call_ColossalaiOptimizer optimizer
  else ret optimizer.

(** Lines 351-358, [# gradient accumulation]. *)
Definition gradient_accumulation (model : Model) (optimizer : Optimizer)
    (train_dataloader : option Dataloader)
    (gradient_handlers : option (list GradientHandler))
    (lr_scheduler : option LrScheduler)
    : M (Optimizer * option Dataloader * option (list GradientHandler)
         * option LrScheduler) :=
  do grad_accum_size <- config_get "gradient_accumulation" VNone;
  if is_not_None grad_accum_size then
    call_accumulate_gradient model optimizer train_dataloader grad_accum_size
      gradient_handlers lr_scheduler
  else ret (optimizer, train_dataloader, gradient_handlers, lr_scheduler).

(** Lines 361-368, [# clip grad norm]: the threshold read from the
    configuration, once it has passed the check. *)
Definition clip_grad_norm (fp16_cfg zero_cfg : value) : M value :=
  do clip_grad_norm <- config_get "clip_grad_norm" (VFloat 0);
  do positive <- lift (fun _ => py_gt_zero clip_grad_norm);
  (if positive then
     if is_not_None zero_cfg
     then raise (ConfigException clip_with_zero_message)
     else
       do naive <-
         (if is_not_None fp16_cfg then
            do mode <- attr fp16_cfg "mode";
            ret (py_eq_enum mode "AMP_TYPE" "NAIVE")
          else ret false);
       if naive then raise (ConfigException clip_with_naive_message)
       else ret tt
   else ret tt) ;;
  ret clip_grad_norm.

(** Lines 283-301: the two converters, one after the other. *)
Definition apply_converters (fp16_cfg zero_cfg : value) (model : Model)
    (optimizer : Optimizer) (criterion : Criterion)
    : M (value * Model * Optimizer * Criterion) :=
  do '(amp_mode, model, optimizer, criterion) <-
    initialize_amp fp16_cfg model optimizer criterion;
  do '(model, optimizer) <- initialize_zero zero_cfg model optimizer;
  ret (amp_mode, model, optimizer, criterion).

(** Lines 249-273: the flags and the start-up synchronisation. *)
Definition startup (model : Model) (verbose : bool) : M unit :=
  modify (set_gpc_verbose verbose) ;;
  cudnn ;;
  sync_model model.

(** Lines 276-301: the exclusion check and the two conversions. *)
Definition check_and_convert (model : Model) (optimizer : Optimizer)
    (criterion : Criterion)
    : M (value * value * value * Model * Optimizer * Criterion) :=
  do fp16_cfg <- config_get "fp16" VNone;
  do zero_cfg <- config_get "zero" VNone;
  check_amp_and_zero fp16_cfg zero_cfg ;;
  do '(amp_mode, model, optimizer, criterion) <-
    apply_converters fp16_cfg zero_cfg model optimizer criterion;
  ret (fp16_cfg, zero_cfg, amp_mode, model, optimizer, criterion).

(** Lines 249-301: from the call up to the end of the two conversions. *)
Definition convert (model : Model) (optimizer : Optimizer)
    (criterion : Criterion) (verbose : bool)
    : M (value * value * value * Model * Optimizer * Criterion) :=
  startup model verbose ;;
  check_and_convert model optimizer criterion.

(** Lines 346-378: from the optimizer check to the return. *)
Definition assemble (fp16_cfg zero_cfg : value) (model : Model)
    (optimizer : Optimizer) (criterion : Criterion)
    (gradient_handlers : option (list GradientHandler))
    (train_dataloader test_dataloader : option Dataloader)
    (lr_scheduler : option LrScheduler)
    : M (Engine * option Dataloader * option Dataloader * option LrScheduler) :=
  do optimizer <- check_optimizer optimizer;
  do '(optimizer, train_dataloader, gradient_handlers, lr_scheduler) <-
    gradient_accumulation model optimizer train_dataloader gradient_handlers
      lr_scheduler;
  do clip_grad_norm <- clip_grad_norm fp16_cfg zero_cfg;
  do engine <-
    call_Engine model optimizer criterion gradient_handlers clip_grad_norm;
  ret (engine, train_dataloader, test_dataloader, lr_scheduler).

(** [initialize], lines 220-378. *)
Definition initialize (model : Model) (optimizer : Optimizer)
    (criterion : Criterion)
    (train_dataloader test_dataloader : option Dataloader)
    (lr_scheduler : option LrScheduler) (verbose : bool)
    : M (Engine * option Dataloader * option Dataloader * option LrScheduler) :=
  do '(fp16_cfg, zero_cfg, amp_mode, model, optimizer, criterion) <-
    convert model optimizer criterion verbose;
  do '(model, gradient_handlers) <- gradient_handler model optimizer amp_mode;
  assemble fp16_cfg zero_cfg model optimizer criterion gradient_handlers
    train_dataloader test_dataloader lr_scheduler.

(** ** Reading a configuration *)

(** A [zero] entry, when there is one, is a section that carries its
    [level]. *)
Definition zero_section_ok (w : world) : bool :=
  match gpc_config w !! "zero" with
  | None => true
  | Some zero =>
      match getattr (heap w) zero "level" with
      | Ok _ => true
      | Raise _ => false
      end
  end.

(** An [fp16] entry other than [None] is a section that carries [mode]. *)
Definition fp16_section_ok (w : world) : bool :=
  match dict_get (gpc_config w) "fp16" VNone with
  | VNone => true
  | fp16 =>
      match getattr (heap w) fp16 "mode" with
      | Ok _ => true
      | Raise _ => false
      end
  end.

(** The configuration has a zero section with [level == 3]. *)
Definition zero_level_3 (w : world) : bool :=
  match gpc_config w !! "zero" with
  | None => false
  | Some zero =>
      match getattr (heap w) zero "level" with
      | Ok level => py_eq_int level 3
      | Raise _ => false
      end
  end.

(** [fp16.mode] as the configuration has it, [None] without an fp16
    section. *)
Definition configured_amp_mode (w : world) : value :=
  match dict_get (gpc_config w) "fp16" VNone with
  | VNone => VNone
  | fp16 =>
      match getattr (heap w) fp16 "mode" with
      | Ok mode => mode
      | Raise _ => VNone
      end
  end.

(** The configuration has an fp16 section whose [mode] is not [None]. *)
Definition fp16_mode_set (w : world) : bool :=
  is_not_None (configured_amp_mode w).

(** The configuration has an fp16 section whose [mode] is
    [AMP_TYPE.NAIVE]. *)
Definition fp16_mode_naive (w : world) : bool :=
  py_eq_enum (configured_amp_mode w) "AMP_TYPE" "NAIVE".

(** The configuration has a zero section. *)
Definition zero_present (w : world) : bool :=
  is_not_None (dict_get (gpc_config w) "zero" VNone).

(** [clip_grad_norm] as the configuration has it, 0.0 by default. *)
Definition configured_clip_grad_norm (w : world) : value :=
  dict_get (gpc_config w) "clip_grad_norm" (VFloat 0).

(** The [gradient_handler] entry, [None] by default. *)
Definition configured_gradient_handler (w : world) : value :=
  dict_get (gpc_config w) "gradient_handler" VNone.

(** The exception a configuration is refused with, in the order of the
    checks: the exclusion of fp16 and zero, the type of the gradient handler
    entry, the clip norm. *)
Definition refusal (w : world) : option exn :=
  if fp16_mode_set w && zero_present w then
    Some (ConfigException fp16_and_zero_message)
  else if is_not_None (configured_gradient_handler w)
          && negb (isinstance_list (configured_gradient_handler w)) then
    Some (ConfigException
            (gradient_handler_message (configured_gradient_handler w)))
  else
    match py_gt_zero (configured_clip_grad_norm w) with
    | Raise e => Some e
    | Ok false => None
    | Ok true =>
        if zero_present w then
          Some (ConfigException clip_with_zero_message)
        else if fp16_mode_naive w then
          Some (ConfigException clip_with_naive_message)
        else None
    end.

(** [gpc.config.section.key] when the section is there and has the key. *)
Definition section_entry (w : world) (section key : string) : option value :=
  match gpc_config w !! section with
  | Some v =>
      match getattr (heap w) v key with
      | Ok x => Some x
      | Raise _ => None
      end
  | None => None
  end.

(** ** Reading a sequence of calls *)


(** The feature converters: mixed precision, sharded optimizer state,
    gradient accumulation. *)
Definition is_conversion_call (c : call) : bool :=
  match c with
  | Call_convert_to_amp _ _ _ _ _
  | Call_convert_to_zero _ _ _ _
  | Call_accumulate_gradient _ _ _ _ _ _ => true
  | _ => false
  end.

Definition is_Engine_call (c : call) : bool :=
  match c with Call_Engine _ => true | _ => false end.

(** [w'] has the configuration of [w]. *)
Definition same_configuration (w w' : world) : Prop :=
  heap w' = heap w /\ gpc_config w' = gpc_config w.

(** [w'] comes after [w]: the dict objects of [w] are still there with
    their entries, the configuration and the topology are the same, and the
    calls recorded since all satisfy [P]. *)
Definition extends (P : call -> bool) (w w' : world) : Prop :=
  heap w ⊆ heap w'
  /\ gpc_config w' = gpc_config w
  /\ is_using_ddp w' = is_using_ddp w
  /\ is_using_pp w' = is_using_pp w
  /\ exists new, calls w' = calls w ++ new /\ forallb P new = true.

(** Whatever its result, [m] leaves a state that comes after the one it
    started in. *)
Definition keeps (P : call -> bool) {A} (m : M A) : Prop :=
  forall w, extends P w (fst (m w)).

(** When [m] raises, the exception satisfies [Q]. *)
Definition raises_only (Q : exn -> bool) {A} (m : M A) : Prop :=
  forall w, match snd (m w) with Raise e => Q e = true | Ok _ => True end.

Definition is_ConfigException (e : exn) : bool :=
  match e with ConfigException _ => true | _ => false end.

(** The exception is one of the two of the clip norm check. *)
Definition is_clip_exception (e : exn) : bool :=
  match e with
  | ConfigException msg =>
      bool_decide (msg = clip_with_zero_message)
      || bool_decide (msg = clip_with_naive_message)
  | _ => false
  end.

(** The exception is the [ConfigException] with that message. *)
Definition is_ConfigException_with (msg : string) (e : exn) : bool :=
  match e with
  | ConfigException msg' => bool_decide (msg' = msg)
  | _ => false
  end.

End Initialize.

(** ** A sample process

    An instance of the collaborators in which every object tells how it was
    made, and a way to set up a process from a configuration. *)

Module Sample.

Inductive model :=
  | Net
  | AmpModel (m : model)
  | ZeroModel (m : model)
  | DDPModel (m : model).

Inductive optimizer :=
  | SGD
  | AmpOptimizer (o : optimizer)
  | ZeroOptimizer (level : value) (o : optimizer)
  | Wrapped (o : optimizer)
  | Accumulating (o : optimizer).

Inductive criterion :=
  | Loss
  | AmpLoss (c : criterion).

Inductive handler :=
  | Handler (cfg : value) (m : model) (o : optimizer)
  | AccumulatingHandler (h : handler).

Definition sample_class_of (o : optimizer) : optimizer_class :=
  match o with
  | SGD => Class_Optimizer
  | ZeroOptimizer (VInt 3) _ => Class_ZeroRedundancyOptimizer_Level_3
  | ZeroOptimizer _ _ => Class_ZeroRedundancyOptimizer_Level_2
  | _ => Class_ColossalaiOptimizer
  end.

#[export] Instance sample : Collaborators :=
  {| Model := model; Optimizer := optimizer; Criterion := criterion;
     Dataloader := unit; LrScheduler := unit; GradientHandler := handler;
     ProcessGroup := ParallelMode;
     class_of := sample_class_of;
     gpc_get_group := fun mode => mode;
     convert_to_amp := fun _ m o c _ _ =>
       (AmpModel m, AmpOptimizer o, AmpLoss c);
     convert_to_zero := fun _ m o level _ =>
       (ZeroModel m, ZeroOptimizer level o);
     DDP := fun m _ => DDPModel m;
     build_gradient_handler := fun _ cfg m o => Handler cfg m o;
     ColossalaiOptimizer := Wrapped;
     accumulate_gradient := fun m o dl n hs lr =>
       (Accumulating o, dl, option_map (List.map AccumulatingHandler) hs, lr) |}.

(** A process whose configuration has the given entries, the sections
    being the given dict objects. *)
Definition process (config : dict) (sections : list (loc * dict))
    (using_ddp using_pp : bool) : world :=
  {| heap := list_to_map sections;
     gpc_config := config; gpc_verbose := false;
     cudnn_benchmark := VNone; cudnn_deterministic := VNone;
     is_using_ddp := using_ddp; is_using_pp := using_pp; calls := [] |}.

(** [initialize(Net, SGD, Loss)] *)
Definition run (w : world) :=
  initialize Net SGD Loss None None None true w.

(** The state in which [initialize(Net, SGD, Loss)] leaves the
    conversions. *)
Definition converted (w : world) : world :=
  fst (convert Net SGD Loss true w).

(** fp16 in torch mode together with zero level 2 *)
Definition fp16_and_zero : world :=
  process {[ "fp16" := VRef 1%positive; "zero" := VRef 2%positive ]}
    [(1%positive, {[ "mode" := VEnum "AMP_TYPE" "TORCH" ]});
     (2%positive, {[ "level" := VInt 2 ]})]
    true false.

(** zero level 3 and a clip norm of 1.0 *)
Definition zero_and_clip : world :=
  process {[ "zero" := VRef 1%positive; "clip_grad_norm" := VFloat 1 ]}
    [(1%positive, {[ "level" := VInt 3 ]})]
    true false.

(** zero level 2, on four data-parallel ranks *)
Definition zero_only : world :=
  process {[ "zero" := VRef 1%positive ]}
    [(1%positive, {[ "level" := VInt 2 ]})]
    true false.

(** fp16 in torch mode, on four data-parallel ranks *)
Definition fp16_only : world :=
  process {[ "fp16" := VRef 1%positive ]}
    [(1%positive, {[ "mode" := VEnum "AMP_TYPE" "TORCH" ]})]
    true false.

(** an empty configuration, data parallel and pipeline parallel at once *)
Definition with_pipeline : world := process ∅ [] true true.


End Sample.

(** * colossalai/initialize.py: [launch] and its three wrappers

    [launch] (lines 58-117) sets up the process through the methods of the
    global context [gpc], which are not among the sources: the calls are
    recorded with their arguments and taken as returning.  The wrappers
    (lines 120-217) read rank, local rank and world size from the
    environment.  Logging is not modelled. *)

(** A path, as a [str] or as a [pathlib.Path]. *)
Inductive path_like :=
  | Str (path : string)
  | Path (path : string).

(** The [config] argument of [launch] by its class: a [Config], a [dict]
    that is not a [Config], a [str] or [Path], or an object of any other
    type, of which the type is kept as it prints. *)
Inductive config_argument :=
  | Of_Config (entries : dict)
  | Of_dict (entries : dict)
  | Of_path (p : path_like)
  | Of_other (type : string).

(** The configuration handed to [gpc.load_config]: the [Config] given,
    [Config(config)] for a dict, [Config.from_file(config)] for a path. *)
Inductive loaded_config :=
  | The_Config (entries : dict)
  | Config_of (entries : dict)
  | Config_from_file (p : path_like).

(** The calls [launch] makes on [gpc]. *)
Inductive gpc_call :=
  | Gpc_load_config (config : loaded_config)
  | Gpc_init_global_dist (rank world_size : Z) (backend host : string)
      (port : Z)
  | Gpc_init_parallel_groups
  | Gpc_set_device (local_rank : option Z)
  | Gpc_set_seed (seed : Z).

Inductive launch_exn :=
  | AssertionError (msg : string)
  | Environ_KeyError (key : string)
  | ValueError (text : string).

(** What [launch] and its wrappers read and write:
    - [launch_verbose]: the flag [gpc.verbose];
    - [gpc_calls]: the calls made on [gpc] so far, oldest first;
    - [cuda_is_available]: the answer of [torch.cuda.is_available()];
    - [environ]: [os.environ]. *)
Record launch_state := {
  launch_verbose : bool;
  gpc_calls : list gpc_call;
  cuda_is_available : bool;
  environ : gmap string string
}.

Definition set_launch_verbose (b : bool) (st : launch_state) : launch_state :=
  {| launch_verbose := b; gpc_calls := gpc_calls st;
     cuda_is_available := cuda_is_available st; environ := environ st |}.

Definition add_gpc_calls (cs : list gpc_call) (st : launch_state)
    : launch_state :=
  {| launch_verbose := launch_verbose st; gpc_calls := gpc_calls st ++ cs;
     cuda_is_available := cuda_is_available st; environ := environ st |}.

(** The message of the assertion of lines 92-93. *)
Definition config_type_message (type : string) : string :=
  "expected argument config to be Config, str or Path, but got " +:+ type.

(** Lines 92-97: the configuration to load, or the failure of the
    assertion. *)
Definition config_to_load (config : config_argument)
    : loaded_config + launch_exn :=
  match config with
  | Of_Config entries => inl (The_Config entries)
  | Of_dict entries => inl (Config_of entries)
  | Of_path p => inl (Config_from_file p)
  | Of_other type => inr (AssertionError (config_type_message type))
  end.

(** [launch], lines 58-117: the state it leaves and the exception it
    raises, if any. *)
Definition launch (config : config_argument) (rank world_size : Z)
    (host : string) (port : Z) (backend : string) (local_rank : option Z)
    (seed : Z) (verbose : bool) (st : launch_state)
    : launch_state * option launch_exn :=
  let st := set_launch_verbose verbose st in
  match config_to_load config with
  | inr e => (st, Some e)
  | inl config =>
      let st :=
        add_gpc_calls
          [Gpc_load_config config;
           Gpc_init_global_dist rank world_size backend host port;
           Gpc_init_parallel_groups] st in
      let st :=
        if cuda_is_available st
        then add_gpc_calls [Gpc_set_device local_rank] st
        else st in
      (add_gpc_calls [Gpc_set_seed seed] st, None)
  end.

Section Wrappers.

(** [int(s)] on a string, [None] where Python raises [ValueError]. *)
Variable int : string -> option Z.

(** [int(os.environ[key])] *)
Definition environ_int (st : launch_state) (key : string) : Z + launch_exn :=
  match environ st !! key with
  | None => inr (Environ_KeyError key)
  | Some text =>
      match int text with
      | Some n => inl n
      | None => inr (ValueError text)
      end
  end.

(** [launch_from_slurm], lines 120-149: no local rank is passed on. *)
Definition launch_from_slurm (config : config_argument) (host : string)
    (port : Z) (backend : string) (seed : Z) (verbose : bool)
    (st : launch_state) : launch_state * option launch_exn :=
  match environ_int st "SLURM_PROCID" with
  | inr e => (st, Some e)
  | inl rank =>
      match environ_int st "SLURM_NPROCS" with
      | inr e => (st, Some e)
      | inl world_size =>
          launch config rank world_size host port backend None seed verbose st
      end
  end.

(** [launch_from_openmpi], lines 152-183. *)
Definition launch_from_openmpi (config : config_argument) (host : string)
    (port : Z) (backend : string) (seed : Z) (verbose : bool)
    (st : launch_state) : launch_state * option launch_exn :=
  match environ_int st "OMPI_COMM_WORLD_RANK" with
  | inr e => (st, Some e)
  | inl rank =>
      match environ_int st "OMPI_COMM_WORLD_LOCAL_RANK" with
      | inr e => (st, Some e)
      | inl local_rank =>
          match environ_int st "OMPI_COMM_WORLD_SIZE" with
          | inr e => (st, Some e)
          | inl world_size =>
              launch config rank world_size host port backend
                (Some local_rank) seed verbose st
          end
      end
  end.

(** [launch_from_torch], lines 186-217. *)
Definition launch_from_torch (config : config_argument) (host : string)
    (port : Z) (backend : string) (seed : Z) (verbose : bool)
    (st : launch_state) : launch_state * option launch_exn :=
  match environ_int st "RANK" with
  | inr e => (st, Some e)
  | inl rank =>
      match environ_int st "LOCAL_RANK" with
      | inr e => (st, Some e)
      | inl local_rank =>
          match environ_int st "WORLD_SIZE" with
          | inr e => (st, Some e)
          | inl world_size =>
              launch config rank world_size host port backend
                (Some local_rank) seed verbose st
          end
      end
  end.

End Wrappers.

(** A reading of decimal numerals, to run the wrappers on. *)
Fixpoint decimal (digits : string) (acc : Z) : option Z :=
  match digits with
  | EmptyString => Some acc
  | String c rest =>
      let n := Z.of_nat (Ascii.nat_of_ascii c) - 48 in
      if (0 <=? n) && (n <=? 9) then decimal rest (10 * acc + n) else None
  end.

Definition sample_int (text : string) : option Z :=
  match text with
  | EmptyString => None
  | _ => decimal text 0
  end.

(** * colossalai/nn/layer/parallel_1d/_operation.py

    [FusedLayerNormAffineFunction1D]: the two static methods of the autograd
    function, over the context object [ctx] that carries what [forward]
    leaves for [backward].  The tensors and the CUDA extension are
    parameters; the extension is [None] when its import failed (lines
    3-6). *)

Class Tensors := {
  Tensor : Type;
  Shape : Type;
  Eps : Type;
  contiguous : Tensor -> Tensor;
  forward_affine :
    Tensor -> Shape -> Tensor -> Tensor -> Eps -> Tensor * Tensor * Tensor;
  backward_affine :
    Tensor -> Tensor -> Tensor -> Tensor -> Shape -> Tensor -> Tensor -> Eps ->
    Tensor * Tensor * Tensor
}.

Section FusedLayerNorm.

Context {T : Tensors}.

(** The module [fused_mix_prec_layer_norm_cuda] is there, or the name is
    bound to [None]. *)
Variable extension_imported : bool.

(** The context: the two attributes [forward] assigns, unset at first, and
    the tensors given to [save_for_backward]. *)
Record ctx := {
  ctx_normalized_shape : option Shape;
  ctx_eps : option Eps;
  saved_tensors : list Tensor
}.

Definition new_ctx : ctx :=
  {| ctx_normalized_shape := None; ctx_eps := None; saved_tensors := [] |}.

Inductive layer_norm_exn :=
  | Missing_attribute (name : string)
  | Unpack_error (expected got : nat).

(** [forward], lines 11-21. *)
Definition forward (c : ctx) (input weight bias : Tensor)
    (normalized_shape : Shape) (eps : Eps)
    : ctx * (Tensor + layer_norm_exn) :=
  let c :=
    {| ctx_normalized_shape := Some normalized_shape; ctx_eps := Some eps;
       saved_tensors := saved_tensors c |} in
  let input_ := contiguous input in
  let weight_ := contiguous weight in
  let bias_ := contiguous bias in
  if extension_imported then
    let '(output, mean, invvar) :=
      forward_affine input_ normalized_shape weight_ bias_ eps in
    ({| ctx_normalized_shape := ctx_normalized_shape c;
        ctx_eps := ctx_eps c;
        saved_tensors := [input_; weight_; bias_; mean; invvar] |},
     inl output)
  else (c, inr (Missing_attribute "forward_affine")).

(** [backward], lines 24-34: the gradients for the five arguments of
    [forward], [None] for the last two. *)
Definition backward (c : ctx) (grad_output : Tensor)
    : (option Tensor * option Tensor * option Tensor * option Tensor
       * option Tensor) + layer_norm_exn :=
  match saved_tensors c with
  | [input_; weight_; bias_; mean; invvar] =>
      if extension_imported then
        match ctx_normalized_shape c with
        | None => inr (Missing_attribute "normalized_shape")
        | Some normalized_shape =>
            match ctx_eps c with
            | None => inr (Missing_attribute "eps")
            | Some eps =>
                let '(grad_input, grad_weight, grad_bias) :=
                  backward_affine (contiguous grad_output) mean invvar input_
                    normalized_shape weight_ bias_ eps in
                inl (Some grad_input, Some grad_weight, Some grad_bias, None,
                     None)
            end
        end
      else inr (Missing_attribute "backward_affine")
  | saved => inr (Unpack_error 5 (length saved))
  end.

End FusedLayerNorm.

(** Tensors that tell how they were computed, to run the two methods on. *)
Module SampleTensors.

Inductive tensor :=
  | Input
  | Weight
  | Bias
  | Grad_output
  | Contiguous (t : tensor)
  | Output (input weight bias : tensor)
  | Mean (input : tensor)
  | Invvar (input : tensor)
  | Grad_input (grad mean invvar input weight bias : tensor)
  | Grad_weight (grad mean invvar input : tensor)
  | Grad_bias (grad : tensor).

#[export] Instance sample_tensors : Tensors :=
  {| Tensor := tensor; Shape := list nat; Eps := Q;
     contiguous := Contiguous;
     forward_affine := fun input _ weight bias _ =>
       (Output input weight bias, Mean input, Invvar input);
     backward_affine := fun grad mean invvar input _ weight bias _ =>
       (Grad_input grad mean invvar input weight bias,
        Grad_weight grad mean invvar input, Grad_bias grad) |}.

End SampleTensors.

(** * More readings of a run of [initialize] *)

Section InitializeReadings.

Context {C : Collaborators}.

Definition is_convert_to_amp_call (c : call) : bool :=
  match c with Call_convert_to_amp _ _ _ _ _ => true | _ => false end.

Definition is_convert_to_zero_call (c : call) : bool :=
  match c with Call_convert_to_zero _ _ _ _ => true | _ => false end.

Definition is_accumulate_gradient_call (c : call) : bool :=
  match c with Call_accumulate_gradient _ _ _ _ _ _ => true | _ => false end.

(** The [gradient_accumulation] entry, [None] by default. *)
Definition configured_gradient_accumulation (w : world) : value :=
  dict_get (gpc_config w) "gradient_accumulation" VNone.

(** The optimizer past lines 347-348: wrapped unless it is an instance of
    one of the three classes. *)
Definition checked_optimizer (optimizer : Optimizer) : Optimizer :=
  if isinstance_colossalai_or_zero (class_of optimizer) then optimizer
  else ColossalaiOptimizer optimizer.

(** What lines 351-358 leave of optimizer, dataloader, gradient handlers
    and scheduler when the accumulation size is [size]. *)
Definition accumulated (size : value) (model : Model) (optimizer : Optimizer)
    (train_dataloader : option Dataloader)
    (gradient_handlers : option (list GradientHandler))
    (lr_scheduler : option LrScheduler)
    : Optimizer * option Dataloader * option (list GradientHandler)
      * option LrScheduler :=
  if is_not_None size then
    accumulate_gradient model optimizer train_dataloader size
      gradient_handlers lr_scheduler
  else (optimizer, train_dataloader, gradient_handlers, lr_scheduler).

(** The calls of lines 347-358. *)
Definition tail_calls (size : value) (model : Model) (optimizer : Optimizer)
    (train_dataloader : option Dataloader)
    (gradient_handlers : option (list GradientHandler))
    (lr_scheduler : option LrScheduler) : list call :=
  (if isinstance_colossalai_or_zero (class_of optimizer) then []
   else [Call_ColossalaiOptimizer optimizer])
  ++ (if is_not_None size then
        [Call_accumulate_gradient model (checked_optimizer optimizer)
           train_dataloader size gradient_handlers lr_scheduler]
      else []).



(** The state in which lines 249-264 leave the process. *)
Definition flagged (verbose : bool) (w : world) : world :=
  set_cudnn (dict_get (gpc_config w) "cudnn_benchmark" (VBool true))
    (dict_get (gpc_config w) "cudnn_deterministic" (VBool false))
    (set_gpc_verbose verbose w).

End InitializeReadings.

(** More processes to run [initialize] on. *)
Module SampleProcesses.

Import Sample.

(** fp16 in naive mode, on four data-parallel ranks *)
Definition naive_fp16 : world :=
  process {[ "fp16" := VRef 1%positive ]}
    [(1%positive, {[ "mode" := VEnum "AMP_TYPE" "NAIVE" ]})]
    true false.

(** an empty configuration on a single process *)
Definition single_process : world := process ∅ [] false false.

(** [zero=2], a number where a section is expected *)
Definition zero_as_a_number : world :=
  process {[ "zero" := VInt 2 ]} [] true false.

(** an fp16 section that has an [init_scale] and no [mode] *)
Definition fp16_without_mode : world :=
  process {[ "fp16" := VRef 1%positive ]}
    [(1%positive, {[ "init_scale" := VInt 128 ]})]
    true false.

(** gradient accumulation over four steps, on four data-parallel ranks *)
Definition accumulating : world :=
  process {[ "gradient_accumulation" := VInt 4 ]} [] true false.

(** the state in which [initialize(Net, SGD, Loss)] leaves the handler
    step there *)
Definition accumulating_under_DDP : world :=
  add_call (Call_DDP Net) (converted accumulating).

(** the Engine it makes there *)
Definition accumulating_engine : Engine :=
  {| engine_model := DDPModel Net;
     engine_optimizer := Accumulating (Wrapped SGD);
     engine_criterion := Loss;
     engine_gradient_handlers := None;
     engine_clip_grad_norm := VFloat 0 |}.

End SampleProcesses.

(** Environments to run [launch] and its wrappers in. *)
Module SampleLaunch.

Definition machine (cuda : bool) (variables : gmap string string)
    : launch_state :=
  {| launch_verbose := false; gpc_calls := []; cuda_is_available := cuda;
     environ := variables |}.

(** rank 1 of 4 under torchrun and under OpenMPI at once, no GPU *)
Definition torch_and_openmpi : launch_state :=
  machine false
    {[ "RANK" := "1"; "LOCAL_RANK" := "1"; "WORLD_SIZE" := "4";
       "OMPI_COMM_WORLD_RANK" := "1"; "OMPI_COMM_WORLD_LOCAL_RANK" := "1";
       "OMPI_COMM_WORLD_SIZE" := "4" ]}.

(** rank 1 of 4 under SLURM and under torchrun at once, with a GPU *)
Definition slurm_and_torch : launch_state :=
  machine true
    {[ "SLURM_PROCID" := "1"; "SLURM_NPROCS" := "4";
       "RANK" := "1"; "LOCAL_RANK" := "1"; "WORLD_SIZE" := "4" ]}.

(** a rank that is no numeral *)
Definition bad_rank : launch_state :=
  machine true {[ "RANK" := "one"; "LOCAL_RANK" := "1"; "WORLD_SIZE" := "4" ]}.

End SampleLaunch.

(** * Properties *)

Section Properties.

Context {C : Collaborators}.

(** ** The monad *)

Lemma bind_Ok {A B} (m : M A) (k : A -> M B) w w1 a :
  m w = (w1, Ok a) -> bind m k w = k a w1.
Proof. intros H. unfold bind. by rewrite H. Qed.

Lemma bind_Raise {A B} (m : M A) (k : A -> M B) w w1 e :
  m w = (w1, Raise e) -> bind m k w = (w1, Raise e).
Proof. intros H. unfold bind. by rewrite H. Qed.

Lemma bind_inv {A B} (m : M A) (k : A -> M B) w w' r :
  bind m k w = (w', r) ->
  (exists w1 a, m w = (w1, Ok a) /\ k a w1 = (w', r))
  \/ (exists e, m w = (w', Raise e) /\ r = Raise e).
Proof.
  unfold bind. destruct (m w) as [w1 [a|e]]; intros H.
  - left. by exists w1, a.
  - right. exists e. by inversion H.
Qed.

(** ** States that come after one another *)

Section Extends.

Variable P : call -> bool.

Lemma extends_refl w : extends P w w.
Proof.
  repeat split; try done. exists []. by rewrite app_nil_r.
Qed.

Lemma extends_trans w1 w2 w3 :
  extends P w1 w2 -> extends P w2 w3 -> extends P w1 w3.
Proof.
  intros (Hh1 & Hc1 & Hd1 & Hp1 & n1 & Hn1 & HP1)
         (Hh2 & Hc2 & Hd2 & Hp2 & n2 & Hn2 & HP2).
  repeat split; try congruence.
  - by etrans.
  - exists (n1 ++ n2). split.
    + by rewrite Hn2, Hn1, app_assoc.
    + by rewrite forallb_app, HP1, HP2.
Qed.

Lemma extends_add_call c w : P c = true -> extends P w (add_call c w).
Proof.
  intros Hc. repeat split; try done. exists [c]. split; [done|].
  simpl. by rewrite Hc.
Qed.

Lemma extends_fresh d w :
  extends P w (set_heap (<[fresh (dom (heap w)) := d]> (heap w)) w).
Proof.
  repeat split; try done.
  - simpl. apply insert_subseteq, not_elem_of_dom, is_fresh.
  - exists []. by rewrite app_nil_r.
Qed.

Lemma keeps_ret {A} (a : A) : keeps P (ret a).
Proof. intros w. apply extends_refl. Qed.

Lemma keeps_raise {A} e : keeps P (raise (A := A) e).
Proof. intros w. apply extends_refl. Qed.

Lemma keeps_gets {A} (f : world -> A) : keeps P (gets f).
Proof. intros w. apply extends_refl. Qed.

Lemma keeps_lift {A} (f : world -> result A) : keeps P (lift f).
Proof. intros w. apply extends_refl. Qed.

Lemma keeps_bind {A B} (m : M A) (k : A -> M B) :
  keeps P m -> (forall a, keeps P (k a)) -> keeps P (bind m k).
Proof.
  intros Hm Hk w. specialize (Hm w). unfold bind.
  destruct (m w) as [w1 [a|e]]; simpl in *; [|done].
  eapply extends_trans; [exact Hm | apply Hk].
Qed.

Lemma keeps_record c : P c = true -> keeps P (record c).
Proof. intros Hc w. by apply extends_add_call. Qed.

Lemma keeps_set_gpc_verbose b : keeps P (modify (set_gpc_verbose b)).
Proof. intros w. repeat split; try done. exists []. by rewrite app_nil_r. Qed.

Lemma keeps_set_cudnn b d : keeps P (modify (set_cudnn b d)).
Proof. intros w. repeat split; try done. exists []. by rewrite app_nil_r. Qed.

Lemma keeps_alloc d : keeps P (alloc d).
Proof. intros w. apply extends_fresh. Qed.

(** The heart of the copy-then-pop idiom of lines 286-287 and 295-296: the
    entry is removed from the new object, and every object that was there
    before keeps its entries. *)
Lemma keeps_copy_pop {A} v key (k : value -> value -> M A) :
  (forall cfg_ x, keeps P (k cfg_ x)) ->
  keeps P (bind (copy v) (fun cfg_ => bind (pop cfg_ key) (k cfg_))).
Proof.
  intros Hk w. destruct v; try apply extends_refl.
  unfold copy, lift, alloc, bind. simpl.
  destruct (heap w !! l) as [d|] eqn:Hl; simpl; [|apply extends_refl].
  rewrite lookup_insert_eq.
  destruct (d !! key) as [x|] eqn:Hx; simpl; [|apply extends_fresh].
  eapply extends_trans; [|apply Hk].
  repeat split; simpl; try done.
  - rewrite insert_insert_eq.
    apply insert_subseteq, not_elem_of_dom, is_fresh.
  - exists []. by rewrite app_nil_r.
Qed.

Lemma keeps_build_gradient_handlers cfgs model optimizer :
  (forall cfg, P (Call_build_gradient_handler cfg model optimizer) = true) ->
  keeps P (build_gradient_handlers cfgs model optimizer).
Proof.
  intros HP. induction cfgs as [|cfg cfgs IH]; simpl.
  - apply keeps_ret.
  - apply keeps_bind.
    + unfold call_build_gradient_handler.
      apply keeps_bind; [by apply keeps_record|intros _].
      apply keeps_bind; [apply keeps_gets|intros h; apply keeps_ret].
    + intros handler. apply keeps_bind; [exact IH|intros; apply keeps_ret].
Qed.

End Extends.

(** Proves [keeps P m] for a step [m] of [initialize] and a [P] that
    computes on each call. *)
Ltac keeps_tac :=
  repeat first
    [ apply keeps_ret | apply keeps_raise | apply keeps_gets
    | apply keeps_lift | apply keeps_set_gpc_verbose | apply keeps_set_cudnn
    | apply keeps_alloc
    | apply keeps_record; reflexivity
    | apply keeps_build_gradient_handlers; intros; reflexivity
    | apply keeps_copy_pop; intros
    | apply keeps_bind; [|intros]
    | match goal with
      | |- keeps _ (if ?b then _ else _) => destruct b
      | |- keeps _ (match ?x with _ => _ end) => destruct x
      end
    | progress unfold
        initialize, convert, startup, check_and_convert, apply_converters,
        assemble, cudnn, sync_model, fp16_mode_is_set,
        check_amp_and_zero, initialize_amp, initialize_zero,
        gradient_handler, resolve_gradient_handler_cfg, gradient_handlers_of,
        check_optimizer, gradient_accumulation, clip_grad_norm,
        call_convert_to_amp, call_convert_to_zero, call_DDP,
        call_ColossalaiOptimizer, call_accumulate_gradient, call_Engine,
        config_get, config_attr, config_hasattr, attr ].

Lemma getattr_mono (h h' : store) v name x :
  h ⊆ h' -> getattr h v name = Ok x -> getattr h' v name = Ok x.
Proof.
  intros Hh. destruct v; simpl; try done.
  destruct (h !! l) as [d|] eqn:Hl; [|done].
  by rewrite (lookup_weaken _ _ _ _ Hl Hh).
Qed.

Lemma keeps_initialize P model optimizer criterion train_dataloader
    test_dataloader lr_scheduler verbose :
  (forall c, P c = true) ->
  keeps P (initialize model optimizer criterion train_dataloader
             test_dataloader lr_scheduler verbose).
Proof.
  intros HP.
  assert (Hrec : forall c, keeps P (record c)) by (intros; by apply keeps_record).
  assert (Hbuild : forall cfgs m o, keeps P (build_gradient_handlers cfgs m o))
    by (intros; by apply keeps_build_gradient_handlers).
  repeat first [ apply Hrec | apply Hbuild | progress keeps_tac ].
Qed.

(** ** Start-up synchronisation (lines 269-273) *)

(** The state [sync_model] leaves. *)
Lemma sync_model_run model w :
  zero_section_ok w = true ->
  exists w',
    sync_model model w = (w', Ok tt)
    /\ heap w' = heap w /\ gpc_config w' = gpc_config w
    /\ is_using_ddp w' = is_using_ddp w /\ is_using_pp w' = is_using_pp w
    /\ calls w' =
         calls w ++ Call_model_to_device model
           :: (if zero_level_3 w then []
               else [Call_sync_model_param_in_dp model]).
Proof.
  unfold zero_section_ok, zero_level_3, sync_model, config_hasattr,
    config_attr, attr, config_getattr, record, modify, lift, gets, ret, bind.
  simpl. destruct (gpc_config w !! "zero") as [zero|] eqn:Hzero; simpl.
  - destruct (getattr (heap w) zero "level") as [level|] eqn:Hlevel;
      [intros _|done].
    rewrite Hzero, Hlevel.
    destruct (py_eq_int level 3); simpl; eexists; repeat split; simpl;
      by rewrite <- ?app_assoc.
  - intros _. eexists; repeat split; simpl; by rewrite <- ?app_assoc.
Qed.

(** ** The exclusion check (lines 276-281) *)

Lemma fp16_mode_is_set_run w :
  fp16_section_ok w = true ->
  fp16_mode_is_set (dict_get (gpc_config w) "fp16" VNone) w
  = (w, Ok (fp16_mode_set w)).
Proof.
  unfold fp16_section_ok, fp16_mode_set, configured_amp_mode,
    fp16_mode_is_set, attr, lift, ret, bind.
  destruct (dict_get (gpc_config w) "fp16" VNone) eqn:Hfp16; simpl; try done;
    by destruct (heap w !! l) as [d|]; simpl; [destruct (d !! "mode")|].
Qed.

Lemma check_amp_and_zero_run w :
  fp16_section_ok w = true ->
  check_amp_and_zero (dict_get (gpc_config w) "fp16" VNone)
    (dict_get (gpc_config w) "zero" VNone) w
  = (w, if fp16_mode_set w && zero_present w
        then Raise (ConfigException fp16_and_zero_message)
        else Ok tt).
Proof.
  intros Hok. unfold check_amp_and_zero.
  rewrite (bind_Ok _ _ _ _ _ (fp16_mode_is_set_run w Hok)).
  unfold zero_present. by destruct (_ && _).
Qed.

(** The predicates on a configuration read the configuration only. *)
Lemma same_configuration_predicates w w' :
  same_configuration w w' ->
  zero_section_ok w' = zero_section_ok w
  /\ fp16_section_ok w' = fp16_section_ok w
  /\ zero_level_3 w' = zero_level_3 w
  /\ fp16_mode_set w' = fp16_mode_set w
  /\ fp16_mode_naive w' = fp16_mode_naive w
  /\ zero_present w' = zero_present w.
Proof.
  intros [Hh Hc].
  unfold zero_section_ok, fp16_section_ok, zero_level_3, fp16_mode_set,
    fp16_mode_naive, configured_amp_mode, zero_present.
  by rewrite Hh, Hc.
Qed.

Lemma bind_assoc {A B D} (m : M A) (f : A -> M B) (g : B -> M D) w :
  bind (bind m f) g w = bind m (fun a => bind (f a) g) w.
Proof. unfold bind. by destruct (m w) as [w1 [a|e]]. Qed.

(** The state [startup] leaves. *)
Lemma startup_run model verbose w :
  zero_section_ok w = true ->
  exists w1,
    startup model verbose w = (w1, Ok tt)
    /\ same_configuration w w1
    /\ is_using_ddp w1 = is_using_ddp w /\ is_using_pp w1 = is_using_pp w
    /\ calls w1 =
         calls w ++ Call_model_to_device model
           :: (if zero_level_3 w then []
               else [Call_sync_model_param_in_dp model]).
Proof.
  intros Hzero.
  set (w0 := set_cudnn (dict_get (gpc_config w) "cudnn_benchmark" (VBool true))
               (dict_get (gpc_config w) "cudnn_deterministic" (VBool false))
               (set_gpc_verbose verbose w)).
  assert (Hsame0 : same_configuration w w0) by done.
  destruct (same_configuration_predicates _ _ Hsame0) as (Hz0 & _ & Hl0 & _).
  destruct (sync_model_run model w0)
    as (w1 & Hrun1 & Hh1 & Hc1 & Hd1 & Hp1 & Hk1); [congruence|].
  exists w1. split; [|by rewrite Hk1, Hl0].
  unfold startup.
  rewrite (bind_Ok _ _ w (set_gpc_verbose verbose w) tt eq_refl).
  by rewrite (bind_Ok _ _ _ w0 tt eq_refl).
Qed.

(** The exclusion check, and what follows it when it passes. *)
Lemma check_and_convert_run model optimizer criterion w :
  fp16_section_ok w = true ->
  check_and_convert model optimizer criterion w =
    if fp16_mode_set w && zero_present w
    then (w, Raise (ConfigException fp16_and_zero_message))
    else
      bind
        (apply_converters (dict_get (gpc_config w) "fp16" VNone)
           (dict_get (gpc_config w) "zero" VNone)
           model optimizer criterion)
        (fun '(amp_mode, model, optimizer, criterion) =>
           ret (dict_get (gpc_config w) "fp16" VNone,
                dict_get (gpc_config w) "zero" VNone,
                amp_mode, model, optimizer, criterion))
        w.
Proof.
  intros Hfp16. unfold check_and_convert.
  rewrite (bind_Ok _ _ w w (dict_get (gpc_config w) "fp16" VNone) eq_refl).
  rewrite (bind_Ok _ _ w w (dict_get (gpc_config w) "zero" VNone) eq_refl).
  unfold bind at 1. rewrite check_amp_and_zero_run by done.
  by destruct (_ && _).
Qed.

Lemma fp16_mode_set_section_ok w :
  fp16_mode_set w = true -> fp16_section_ok w = true.
Proof.
  unfold fp16_mode_set, fp16_section_ok, configured_amp_mode.
  destruct (dict_get (gpc_config w) "fp16" VNone); try done.
  by destruct (getattr _ _ _).
Qed.



Lemma forallb_negb_existsb {A} (f : A -> bool) (l : list A) :
  forallb (fun a => negb (f a)) l = negb (existsb f l).
Proof.
  induction l as [|a l IH]; simpl; [done|].
  rewrite IH. by destruct (f a).
Qed.


(** C9.  Whatever the configuration and however [initialize] ends, the
    configuration it started with is still there: [gpc.config] has the same
    entries, every dict object of the store has the entries it had, and so
    [fp16.mode] and [zero.level] read as before.  The two [pop]s of lines
    287 and 296 take their key out of the copies. *)
Theorem initialize_leaves_the_configuration model optimizer criterion
    train_dataloader test_dataloader lr_scheduler verbose w :
  let w' := fst (initialize model optimizer criterion train_dataloader
                   test_dataloader lr_scheduler verbose w) in
  gpc_config w' = gpc_config w
  /\ heap w ⊆ heap w'
  /\ (forall mode,
        section_entry w "fp16" "mode" = Some mode ->
        section_entry w' "fp16" "mode" = Some mode)
  /\ (forall level,
        section_entry w "zero" "level" = Some level ->
        section_entry w' "zero" "level" = Some level).
Proof.
  intros w'.
  destruct (keeps_initialize (fun _ => true) model optimizer criterion
              train_dataloader test_dataloader lr_scheduler verbose
              (fun _ => eq_refl) w) as (Hheap & Hconfig & _).
  fold w' in Hheap, Hconfig.
  assert (Hentry : forall section key x,
            section_entry w section key = Some x ->
            section_entry w' section key = Some x).
  { intros section key x. unfold section_entry. rewrite Hconfig.
    destruct (gpc_config w !! section) as [v|]; [|done].
    destruct (getattr (heap w) v key) as [y|] eqn:Hy; [|done].
    by rewrite (getattr_mono _ _ _ _ _ Hheap Hy). }
  repeat split; auto.
Qed.

(** ** The gradient handlers (lines 303-344) *)

Lemma convert_extends model optimizer criterion verbose w :
  extends (fun _ => true) w (fst (convert model optimizer criterion verbose w)).
Proof.
  revert w. change (keeps (fun _ => true)
                      (convert model optimizer criterion verbose)).
  keeps_tac.
Qed.

(** The list comprehension of line 344: one call per element, in the order
    of the list, each with the model and the optimizer of that moment. *)
Lemma build_gradient_handlers_run cfgs model optimizer w :
  exists w',
    build_gradient_handlers cfgs model optimizer w
    = (w', Ok (map (fun cfg =>
                      build_gradient_handler (heap w) cfg model optimizer)
                 cfgs))
    /\ heap w' = heap w /\ gpc_config w' = gpc_config w
    /\ is_using_ddp w' = is_using_ddp w /\ is_using_pp w' = is_using_pp w
    /\ calls w' =
         calls w
         ++ map (fun cfg => Call_build_gradient_handler cfg model optimizer)
              cfgs.
Proof.
  revert w. induction cfgs as [|cfg cfgs IH]; intros w; simpl.
  - exists w. repeat split. by rewrite app_nil_r.
  - destruct (IH (add_call (Call_build_gradient_handler cfg model optimizer) w))
      as (w' & Hrun & Hh & Hc & Hd & Hp & Hk).
    exists w'. split; [|repeat split; try done].
    + unfold bind at 1. unfold call_build_gradient_handler, record, modify,
        gets, ret, bind at 1 2. simpl.
      unfold bind. by rewrite Hrun.
    + rewrite Hk. simpl. by rewrite <- app_assoc.
Qed.

Ltac run_resolve :=
  unfold resolve_gradient_handler_cfg, config_get, alloc, call_DDP, record,
    modify, gets, ret, raise, bind; simpl;
  repeat match goal with
         | H : _ = _ |- _ => rewrite H; simpl
         end.

Lemma resolve_zero model optimizer amp_mode w :
  dict_get (gpc_config w) "gradient_handler" VNone = VNone ->
  isinstance_zero (class_of optimizer) = true ->
  resolve_gradient_handler_cfg model optimizer amp_mode w
  = (set_heap (<[fresh (dom (heap w)) :=
                   {[ "type" := VStr "ZeROGradientHandler" ]}]> (heap w)) w,
     Ok (model, VList [VRef (fresh (dom (heap w)))])).
Proof. intros Hcfg Hzero. by run_resolve. Qed.

Lemma resolve_ddp model optimizer amp_mode w :
  dict_get (gpc_config w) "gradient_handler" VNone = VNone ->
  isinstance_zero (class_of optimizer) = false ->
  is_using_ddp w = true ->
  is_using_pp w = false ->
  py_eq_enum amp_mode "AMP_TYPE" "NAIVE" = false ->
  resolve_gradient_handler_cfg model optimizer amp_mode w
  = (add_call (Call_DDP model) w,
     Ok (DDP model (gpc_get_group ParallelMode_DATA), VNone)).
Proof.
  intros Hcfg Hzero Hddp Hpp Hnaive. by run_resolve.
Qed.

Lemma resolve_data_parallel model optimizer amp_mode w :
  dict_get (gpc_config w) "gradient_handler" VNone = VNone ->
  isinstance_zero (class_of optimizer) = false ->
  is_using_ddp w = true ->
  is_using_pp w = true \/ py_eq_enum amp_mode "AMP_TYPE" "NAIVE" = true ->
  resolve_gradient_handler_cfg model optimizer amp_mode w
  = (set_heap (<[fresh (dom (heap w)) :=
                   {[ "type" := VStr "DataParallelGradientHandler" ]}]>
                 (heap w)) w,
     Ok (model, VList [VRef (fresh (dom (heap w)))])).
Proof.
  intros Hcfg Hzero Hddp Hor. run_resolve.
  destruct Hor as [Hpp | Hnaive]; run_resolve; [done|].
  by destruct (is_using_pp w).
Qed.

Lemma resolve_nothing model optimizer amp_mode w :
  dict_get (gpc_config w) "gradient_handler" VNone = VNone ->
  isinstance_zero (class_of optimizer) = false ->
  is_using_ddp w = false ->
  resolve_gradient_handler_cfg model optimizer amp_mode w
  = (w, Ok (model, VNone)).
Proof. intros Hcfg Hzero Hddp. by run_resolve. Qed.

Lemma resolve_list model optimizer amp_mode w cfgs :
  dict_get (gpc_config w) "gradient_handler" VNone = VList cfgs ->
  resolve_gradient_handler_cfg model optimizer amp_mode w
  = (w, Ok (model, VList cfgs)).
Proof. intros Hcfg. by run_resolve. Qed.

Lemma resolve_not_a_list model optimizer amp_mode w :
  is_None (dict_get (gpc_config w) "gradient_handler" VNone) = false ->
  isinstance_list (dict_get (gpc_config w) "gradient_handler" VNone) = false ->
  resolve_gradient_handler_cfg model optimizer amp_mode w
  = (w, Raise (ConfigException
                 (gradient_handler_message
                    (dict_get (gpc_config w) "gradient_handler" VNone)))).
Proof. intros Hnone Hlist. by run_resolve. Qed.

(** A single handler built from a specification made on the spot. *)
Lemma gradient_handler_single model optimizer amp_mode w type :
  resolve_gradient_handler_cfg model optimizer amp_mode w
  = (set_heap (<[fresh (dom (heap w)) := {[ "type" := VStr type ]}]>
                 (heap w)) w,
     Ok (model, VList [VRef (fresh (dom (heap w)))])) ->
  exists w' spec,
    gradient_handler model optimizer amp_mode w
    = (w', Ok (model,
               Some [build_gradient_handler (heap w') (VRef spec) model
                       optimizer]))
    /\ heap w !! spec = None
    /\ heap w' = <[spec := {[ "type" := VStr type ]}]> (heap w)
    /\ gpc_config w' = gpc_config w
    /\ calls w' =
         calls w ++ [Call_build_gradient_handler (VRef spec) model optimizer].
Proof.
  intros Hresolve. eexists. exists (fresh (dom (heap w))).
  split; [|split; [apply not_elem_of_dom, is_fresh|]].
  - unfold gradient_handler. rewrite (bind_Ok _ _ _ _ _ Hresolve).
    reflexivity.
  - done.
Qed.

(** ** Which exceptions a step can raise *)

Section RaisesOnly.

Variable Q : exn -> bool.

Lemma raises_only_ret {A} (a : A) : raises_only Q (ret a).
Proof. by intros w. Qed.

Lemma raises_only_gets {A} (f : world -> A) : raises_only Q (gets f).
Proof. by intros w. Qed.

Lemma raises_only_modify f : raises_only Q (modify f).
Proof. by intros w. Qed.

Lemma raises_only_alloc d : raises_only Q (alloc d).
Proof. by intros w. Qed.

Lemma raises_only_raise {A} e : Q e = true -> raises_only Q (raise (A := A) e).
Proof. by intros He w. Qed.

Lemma raises_only_bind {A B} (m : M A) (k : A -> M B) :
  raises_only Q m -> (forall a, raises_only Q (k a)) ->
  raises_only Q (bind m k).
Proof.
  intros Hm Hk w. specialize (Hm w). unfold bind.
  destruct (m w) as [w1 [a|e]]; simpl in *; [apply Hk|done].
Qed.

Lemma raises_only_attr v name :
  Q (AttributeError name) = true -> raises_only Q (attr v name).
Proof.
  intros HQ w. unfold attr, lift, getattr. simpl.
  destruct v; try done.
  destruct (heap w !! l) as [d|]; [|done]. by destruct (d !! name).
Qed.

Lemma raises_only_config_attr name :
  Q (AttributeError name) = true -> raises_only Q (config_attr name).
Proof.
  intros HQ w. unfold config_attr, lift, config_getattr. simpl.
  by destruct (gpc_config w !! name).
Qed.

Lemma raises_only_copy v :
  Q (AttributeError "copy") = true -> raises_only Q (copy v).
Proof.
  intros HQ w. destruct v; try done.
  unfold copy, lift, alloc, bind. simpl. by destruct (heap w !! l).
Qed.

Lemma raises_only_pop v key :
  Q (AttributeError "pop") = true ->
  Q (KeyError key) = true ->
  Q (TypeError "'str' object cannot be interpreted as an integer") = true ->
  raises_only Q (pop v key).
Proof.
  intros HA HK HT w. destruct v; try done.
  unfold pop. destruct (heap w !! l) as [d|]; [|done].
  by destruct (d !! key).
Qed.

Lemma raises_only_py_gt_zero v :
  Q (TypeError "'>' not supported") = true ->
  raises_only Q (lift (fun _ => py_gt_zero v)).
Proof. intros HQ w. by destruct v. Qed.

Lemma raises_only_build_gradient_handlers cfgs model optimizer :
  raises_only Q (build_gradient_handlers cfgs model optimizer).
Proof.
  induction cfgs as [|cfg cfgs IH]; simpl.
  - apply raises_only_ret.
  - apply raises_only_bind.
    + unfold call_build_gradient_handler.
      apply raises_only_bind; [apply raises_only_modify|intros _].
      apply raises_only_bind; [apply raises_only_gets|intros h].
      apply raises_only_ret.
    + intros handler.
      apply raises_only_bind; [exact IH|intros; apply raises_only_ret].
Qed.

End RaisesOnly.

(** Proves [raises_only Q m] for a step [m] of [initialize] and a [Q] that
    computes on each exception. *)
Ltac raises_tac :=
  repeat first
    [ apply raises_only_ret | apply raises_only_gets
    | apply raises_only_modify | apply raises_only_alloc
    | apply raises_only_raise; reflexivity
    | apply raises_only_attr; reflexivity
    | apply raises_only_config_attr; reflexivity
    | apply raises_only_copy; reflexivity
    | apply raises_only_pop; reflexivity
    | apply raises_only_py_gt_zero; reflexivity
    | apply raises_only_build_gradient_handlers
    | apply raises_only_bind; [|intros]
    | match goal with
      | |- raises_only _ (if ?b then _ else _) => destruct b
      | |- raises_only _ (match ?x with _ => _ end) => destruct x
      end
    | progress unfold
        initialize, convert, startup, check_and_convert, apply_converters,
        assemble, cudnn, sync_model, fp16_mode_is_set,
        check_amp_and_zero, initialize_amp, initialize_zero,
        gradient_handler, resolve_gradient_handler_cfg, gradient_handlers_of,
        check_optimizer, gradient_accumulation, clip_grad_norm,
        call_convert_to_amp, call_convert_to_zero, call_DDP,
        call_ColossalaiOptimizer, call_accumulate_gradient, call_Engine,
        config_get, config_hasattr, record ].

(** Up to the exclusion check, and again in the two conversions, no
    [ConfigException] is raised. *)
Lemma startup_raises model verbose :
  raises_only (fun e => negb (is_ConfigException e)) (startup model verbose).
Proof. raises_tac. Qed.

Lemma apply_converters_raises fp16_cfg zero_cfg model optimizer criterion :
  raises_only (fun e => negb (is_ConfigException e))
    (apply_converters fp16_cfg zero_cfg model optimizer criterion).
Proof. raises_tac. Qed.

(** Past the conversions, the [ConfigException] of the exclusion check is
    not raised any more. *)
Lemma gradient_handler_raises model optimizer amp_mode :
  raises_only (fun e => negb (is_ConfigException_with fp16_and_zero_message e))
    (gradient_handler model optimizer amp_mode).
Proof. raises_tac. Qed.

Lemma assemble_raises fp16_cfg zero_cfg model optimizer criterion
    gradient_handlers train_dataloader test_dataloader lr_scheduler :
  raises_only (fun e => negb (is_ConfigException_with fp16_and_zero_message e))
    (assemble fp16_cfg zero_cfg model optimizer criterion gradient_handlers
       train_dataloader test_dataloader lr_scheduler).
Proof. raises_tac. Qed.

(** ** Where [initialize] raises *)

Lemma keeps_run P {A} (m : M A) w w' r :
  keeps P m -> m w = (w', r) -> extends P w w'.
Proof. intros Hm Hrun. specialize (Hm w). by rewrite Hrun in Hm. Qed.

Lemma raises_only_run Q {A} (m : M A) w w' e :
  raises_only Q m -> m w = (w', Raise e) -> Q e = true.
Proof. intros Hm Hrun. specialize (Hm w). by rewrite Hrun in Hm. Qed.

Lemma raise_extends_bind P {A B} (m : M A) (k : A -> M B) w w' e :
  keeps P m ->
  (forall a w1, k a w1 = (w', Raise e) -> extends P w1 w') ->
  bind m k w = (w', Raise e) -> extends P w w'.
Proof.
  intros Hm Hk H.
  apply bind_inv in H as [(w1 & a & Hmw & Hkw) | (e' & Hmw & _)].
  - eapply extends_trans; [by eapply keeps_run|by eapply Hk].
  - by eapply keeps_run.
Qed.

(** An Engine is made only when nothing is raised. *)
Lemma raise_before_Engine model optimizer criterion train_dataloader
    test_dataloader lr_scheduler verbose w w' e :
  initialize model optimizer criterion train_dataloader test_dataloader
    lr_scheduler verbose w = (w', Raise e) ->
  extends (fun c => negb (is_Engine_call c)) w w'.
Proof.
  unfold initialize.
  apply raise_extends_bind; [keeps_tac|].
  intros [[[[[fp16_cfg zero_cfg] amp_mode] model1] optimizer1] criterion1] w1.
  cbv beta iota.
  apply raise_extends_bind; [keeps_tac|].
  intros [model2 gradient_handlers] w2. cbv beta iota. unfold assemble.
  apply raise_extends_bind; [keeps_tac|]. intros optimizer3 w3.
  apply raise_extends_bind; [keeps_tac|].
  intros [[[optimizer4 train_dataloader4] gradient_handlers4] lr_scheduler4] w4.
  cbv beta iota.
  apply raise_extends_bind; [keeps_tac|]. intros clip w5.
  by unfold call_Engine, record, modify, ret, bind.
Qed.

(** The exclusion check is the first place where a [ConfigException] is
    raised, and no converter is called before it. *)
Lemma exclusion_before_conversion model optimizer criterion train_dataloader
    test_dataloader lr_scheduler verbose w w' :
  initialize model optimizer criterion train_dataloader test_dataloader
    lr_scheduler verbose w
  = (w', Raise (ConfigException fp16_and_zero_message)) ->
  extends (fun c => negb (is_conversion_call c)) w w'.
Proof.
  unfold initialize. intros H.
  apply bind_inv in H as [(w1 & a & Hconvert & Hrest) | (e & Hconvert & He)].
  { (* raised after the conversions: another message *)
    destruct a as [[[[[fp16_cfg zero_cfg] amp_mode] model1] optimizer1] criterion1].
    apply bind_inv in Hrest
      as [(w2 & [model2 handlers] & Hgh & Hrest) | (e & Hgh & He)].
    - by apply (raises_only_run _ _ _ _ _ (assemble_raises _ _ _ _ _ _ _ _ _))
        in Hrest.
    - inversion He; subst e.
      by apply (raises_only_run _ _ _ _ _ (gradient_handler_raises _ _ _))
        in Hgh. }
  inversion He; subst e. clear He. unfold convert in Hconvert.
  apply bind_inv in Hconvert
    as [(w1 & [] & Hstart & Hcheck) | (e' & Hstart & He)].
  2: { inversion He; subst e'.
       by apply (raises_only_run _ _ _ _ _ (startup_raises _ _)) in Hstart. }
  eapply extends_trans; [eapply keeps_run; [|exact Hstart]; keeps_tac|].
  unfold check_and_convert in Hcheck.
  apply bind_inv in Hcheck as [(w2 & fp16_cfg & Hget1 & Hcheck) | (? & ? & ?)];
    [|done].
  apply bind_inv in Hcheck as [(w3 & zero_cfg & Hget2 & Hcheck) | (? & ? & ?)];
    [|done].
  inversion Hget1; subst w2. inversion Hget2; subst w3. clear Hget1 Hget2.
  apply bind_inv in Hcheck as [(w2 & [] & Hexcl & Hconv) | (e' & Hexcl & _)].
  - apply bind_inv in Hconv as [(w3 & a & Hconv & Hret) | (e' & Hconv & He)].
    + by destruct a as [[[? ?] ?] ?].
    + inversion He; subst e'.
      by apply (raises_only_run _ _ _ _ _ (apply_converters_raises _ _ _ _ _))
        in Hconv.
  - eapply keeps_run; [|exact Hexcl]. keeps_tac.
Qed.

(** C3, as the code has it.  When [initialize] raises a [ConfigException],
    no Engine has been made; and when it is the one of the exclusion check
    of line 280, no converter has been called either: model, optimizer and
    criterion are still those of the caller. *)
Theorem config_exception_sites model optimizer criterion train_dataloader
    test_dataloader lr_scheduler verbose w w' msg :
  initialize model optimizer criterion train_dataloader test_dataloader
    lr_scheduler verbose w = (w', Raise (ConfigException msg)) ->
  exists new,
    calls w' = calls w ++ new
    /\ existsb is_Engine_call new = false
    /\ (msg = fp16_and_zero_message ->
        existsb is_conversion_call new = false).
Proof.
  intros Hrun.
  destruct (raise_before_Engine _ _ _ _ _ _ _ _ _ _ Hrun)
    as (_ & _ & _ & _ & new & Hnew & HEngine).
  rewrite forallb_negb_existsb in HEngine. apply negb_true_iff in HEngine.
  exists new. do 2 (split; [done|]). intros ->.
  destruct (exclusion_before_conversion _ _ _ _ _ _ _ _ _ Hrun)
    as (_ & _ & _ & _ & new' & Hnew' & Hconversion).
  rewrite forallb_negb_existsb in Hconversion.
  apply negb_true_iff in Hconversion.
  rewrite Hnew in Hnew'. by apply app_inv_head in Hnew' as ->.
Qed.

(** ** The run of [initialize] on a well-formed configuration *)

Lemma copy_pop_run {A} v key x (k : value -> value -> M A) w :
  getattr (heap w) v key = Ok x ->
  exists d,
    bind (copy v) (fun cfg_ => bind (pop cfg_ key) (k cfg_)) w
    = k (VRef (fresh (dom (heap w)))) x
        (set_heap (<[fresh (dom (heap w)) := delete key d]> (heap w)) w).
Proof.
  intros H. destruct v; try done. simpl in H.
  destruct (heap w !! l) as [d|] eqn:Hl; [|done].
  destruct (d !! key) as [y|] eqn:Hy; [|done].
  inversion H; subst y. exists d.
  unfold copy, lift, alloc, pop, bind. simpl. rewrite Hl. simpl.
  rewrite lookup_insert_eq, Hy. simpl. by rewrite insert_insert_eq.
Qed.

Lemma fp16_mode_set_getattr w :
  fp16_mode_set w = true ->
  getattr (heap w) (dict_get (gpc_config w) "fp16" VNone) "mode"
  = Ok (configured_amp_mode w).
Proof.
  unfold fp16_mode_set, configured_amp_mode.
  destruct (dict_get (gpc_config w) "fp16" VNone); try done.
  by destruct (getattr _ _ _).
Qed.

Lemma initialize_amp_run model optimizer criterion w :
  fp16_section_ok w = true ->
  exists w' model' optimizer' criterion',
    initialize_amp (dict_get (gpc_config w) "fp16" VNone) model optimizer
      criterion w
    = (w', Ok (configured_amp_mode w, model', optimizer', criterion'))
    /\ (fp16_mode_set w = false -> w' = w).
Proof.
  intros Hok. unfold initialize_amp.
  rewrite (bind_Ok _ _ _ _ _ (fp16_mode_is_set_run w Hok)).
  destruct (fp16_mode_set w) eqn:Hset.
  - destruct (copy_pop_run _ _ _
                (fun cfg_ amp_mode =>
                   bind (call_convert_to_amp model optimizer criterion
                           amp_mode cfg_)
                     (fun '(model, optimizer, criterion) =>
                        ret (amp_mode, model, optimizer, criterion)))
                w (fp16_mode_set_getattr w Hset)) as (d & ->).
    unfold call_convert_to_amp, record, modify, gets, ret, bind. simpl.
    destruct (convert_to_amp _ _ _ _ _ _) as [[model' optimizer'] criterion'].
    do 4 eexists. split; [reflexivity|done].
  - assert (configured_amp_mode w = VNone) as ->
      by (unfold fp16_mode_set in Hset; by destruct (configured_amp_mode w)).
    do 4 eexists. split; [reflexivity|done].
Qed.

Lemma initialize_zero_run zero_cfg model optimizer w :
  (is_not_None zero_cfg = true ->
   exists level, getattr (heap w) zero_cfg "level" = Ok level) ->
  exists w' model' optimizer',
    initialize_zero zero_cfg model optimizer w
    = (w', Ok (model', optimizer')).
Proof.
  intros Hok. unfold initialize_zero.
  destruct (is_not_None zero_cfg); [|do 3 eexists; reflexivity].
  destruct Hok as (level & Hlevel); [done|].
  destruct (copy_pop_run _ _ _
              (fun cfg_ level =>
                 call_convert_to_zero model optimizer level cfg_)
              w Hlevel) as (d & ->).
  unfold call_convert_to_zero, record, modify, gets, ret, bind. simpl.
  destruct (convert_to_zero _ _ _ _ _) as [model' optimizer'].
  do 3 eexists; reflexivity.
Qed.

Lemma zero_present_getattr w :
  zero_section_ok w = true ->
  is_not_None (dict_get (gpc_config w) "zero" VNone) = true ->
  exists level,
    getattr (heap w) (dict_get (gpc_config w) "zero" VNone) "level" = Ok level.
Proof.
  unfold zero_section_ok, dict_get.
  destruct (gpc_config w !! "zero") as [zero|]; [|done].
  destruct (getattr (heap w) zero "level") as [level|]; [|done].
  by exists level.
Qed.

(** On a well-formed configuration [convert] either stops at the exclusion
    check or comes through both conversions. *)
Lemma convert_cases model optimizer criterion verbose w :
  zero_section_ok w = true ->
  fp16_section_ok w = true ->
  if fp16_mode_set w && zero_present w then
    exists w',
      convert model optimizer criterion verbose w
      = (w', Raise (ConfigException fp16_and_zero_message))
  else
    exists w' model' optimizer' criterion',
      convert model optimizer criterion verbose w
      = (w', Ok (dict_get (gpc_config w) "fp16" VNone,
                 dict_get (gpc_config w) "zero" VNone,
                 configured_amp_mode w, model', optimizer', criterion')).
Proof.
  intros Hzero Hfp16.
  destruct (startup_run model verbose w Hzero)
    as (w1 & Hrun & Hsame & _ & _ & _).
  destruct (same_configuration_predicates _ _ Hsame)
    as (Hz1 & Hf1 & _ & Hm1 & _ & Hp1).
  assert (Hamp1 : configured_amp_mode w1 = configured_amp_mode w).
  { destruct Hsame as [Hh Hc]. unfold configured_amp_mode. by rewrite Hh, Hc. }
  destruct Hsame as [Hh1 Hc1].
  unfold convert. rewrite (bind_Ok _ _ _ _ _ Hrun).
  rewrite check_and_convert_run by congruence.
  rewrite Hm1, Hp1, Hc1.
  destruct (fp16_mode_set w && zero_present w) eqn:Hboth; [by eexists|].
  unfold apply_converters.
  destruct (initialize_amp_run model optimizer criterion w1)
    as (w2 & model2 & optimizer2 & criterion2 & Hamp & Hsame2); [congruence|].
  rewrite Hc1, Hamp1 in Hamp.
  rewrite bind_assoc, (bind_Ok _ _ _ _ _ Hamp). cbv beta iota.
  destruct (initialize_zero_run (dict_get (gpc_config w) "zero" VNone)
              model2 optimizer2 w2) as (w3 & model3 & optimizer3 & Hzero3).
  { intros Hpresent. apply andb_false_iff in Hboth as [Hnot|Hnot].
    - rewrite Hsame2, Hh1 by congruence. by apply zero_present_getattr.
    - unfold zero_present in Hnot. congruence. }
  rewrite bind_assoc, (bind_Ok _ _ _ _ _ Hzero3). cbv beta iota.
  by do 4 eexists.
Qed.

Lemma keeps_gradient_handler model optimizer amp_mode :
  keeps (fun c => negb (is_Engine_call c))
    (gradient_handler model optimizer amp_mode).
Proof. keeps_tac. Qed.

(** The gradient handler step raises on an entry that is neither [None] nor
    a list, and on nothing else. *)
Lemma gradient_handler_cases model optimizer amp_mode w :
  if is_not_None (configured_gradient_handler w)
     && negb (isinstance_list (configured_gradient_handler w))
  then
    gradient_handler model optimizer amp_mode w
    = (w, Raise (ConfigException
                   (gradient_handler_message (configured_gradient_handler w))))
  else
    exists w' model' handlers,
      gradient_handler model optimizer amp_mode w
      = (w', Ok (model', handlers)).
Proof.
  unfold configured_gradient_handler.
  destruct (dict_get (gpc_config w) "gradient_handler" VNone) as
    [ | b | n | q | s | cls member | cfgs | l ] eqn:Hcfg; simpl.
  2-6,8: unfold gradient_handler;
         erewrite bind_Raise; [reflexivity|];
         rewrite resolve_not_a_list; by rewrite Hcfg.
  - (* no entry: lines 311-330 *)
    destruct (isinstance_zero (class_of optimizer)) eqn:Hzero.
    { destruct (gradient_handler_single model optimizer amp_mode w _
                  (resolve_zero _ _ _ _ Hcfg Hzero))
        as (w' & spec & Hrun & _).
      by do 3 eexists. }
    destruct (is_using_ddp w) eqn:Hddp.
    2: { unfold gradient_handler.
         rewrite (bind_Ok _ _ _ _ _ (resolve_nothing _ _ amp_mode _ Hcfg Hzero Hddp)).
         by do 3 eexists. }
    destruct (is_using_pp w) eqn:Hpp.
    { destruct (gradient_handler_single model optimizer amp_mode w _
                  (resolve_data_parallel _ _ _ _ Hcfg Hzero Hddp
                     (or_introl Hpp)))
        as (w' & spec & Hrun & _).
      by do 3 eexists. }
    destruct (py_eq_enum amp_mode "AMP_TYPE" "NAIVE") eqn:Hnaive.
    { destruct (gradient_handler_single model optimizer amp_mode w _
                  (resolve_data_parallel _ _ _ _ Hcfg Hzero Hddp
                     (or_intror Hnaive)))
        as (w' & spec & Hrun & _).
      by do 3 eexists. }
    unfold gradient_handler.
    rewrite (bind_Ok _ _ _ _ _ (resolve_ddp _ _ _ _ Hcfg Hzero Hddp Hpp Hnaive)).
    by do 3 eexists.
  - (* a list: line 344 *)
    unfold gradient_handler.
    rewrite (bind_Ok _ _ _ _ _ (resolve_list _ _ amp_mode _ _ Hcfg)).
    cbv beta iota. unfold gradient_handlers_of.
    destruct (build_gradient_handlers_run cfgs model optimizer w)
      as (w' & Hrun & _).
    rewrite bind_assoc, (bind_Ok _ _ _ _ _ Hrun).
    by do 3 eexists.
Qed.

(** ** The clip norm and the Engine (lines 346-378) *)

Lemma clip_grad_norm_run fp16_cfg zero_cfg w :
  clip_grad_norm fp16_cfg zero_cfg w
  = (w,
     match py_gt_zero (configured_clip_grad_norm w) with
     | Raise e => Raise e
     | Ok false => Ok (configured_clip_grad_norm w)
     | Ok true =>
         if is_not_None zero_cfg then
           Raise (ConfigException clip_with_zero_message)
         else if is_not_None fp16_cfg then
           match getattr (heap w) fp16_cfg "mode" with
           | Ok mode =>
               if py_eq_enum mode "AMP_TYPE" "NAIVE"
               then Raise (ConfigException clip_with_naive_message)
               else Ok (configured_clip_grad_norm w)
           | Raise e => Raise e
           end
         else Ok (configured_clip_grad_norm w)
     end).
Proof.
  unfold clip_grad_norm, configured_clip_grad_norm, config_get, attr, lift,
    gets, ret, raise, bind. simpl.
  destruct (py_gt_zero _) as [[|]|e]; simpl; try done.
  destruct (is_not_None zero_cfg); simpl; [done|].
  destruct (is_not_None fp16_cfg); simpl; [|done].
  destruct (getattr (heap w) fp16_cfg "mode") as [mode|e]; simpl; [|done].
  by destruct (py_eq_enum mode "AMP_TYPE" "NAIVE").
Qed.

(** From the optimizer check to the clip norm nothing is raised. *)
Lemma assemble_run fp16_cfg zero_cfg model optimizer criterion
    gradient_handlers train_dataloader test_dataloader lr_scheduler w :
  exists w1 optimizer' train_dataloader' gradient_handlers' lr_scheduler',
    extends (fun c => negb (is_Engine_call c)) w w1
    /\ assemble fp16_cfg zero_cfg model optimizer criterion gradient_handlers
         train_dataloader test_dataloader lr_scheduler w
       = bind (clip_grad_norm fp16_cfg zero_cfg)
           (fun clip =>
              bind (call_Engine model optimizer' criterion gradient_handlers'
                      clip)
                (fun engine =>
                   ret (engine, train_dataloader', test_dataloader,
                        lr_scheduler')))
           w1.
Proof.
  set (P := fun c => negb (is_Engine_call c)).
  unfold assemble.
  destruct (check_optimizer optimizer w) as [w1 r1] eqn:Hcheck.
  assert (H1 : extends P w w1)
    by (eapply keeps_run; [|exact Hcheck]; subst P; keeps_tac).
  assert (exists optimizer1, r1 = Ok optimizer1) as (optimizer1 & ->).
  { revert Hcheck. unfold check_optimizer, call_ColossalaiOptimizer, record,
      modify, ret, bind.
    destruct (negb _); simpl; intros [= <- <-]; by eexists. }
  rewrite (bind_Ok _ _ _ _ _ Hcheck).
  destruct (gradient_accumulation model optimizer1 train_dataloader
              gradient_handlers lr_scheduler w1) as [w2 r2] eqn:Haccum.
  assert (H2 : extends P w1 w2)
    by (eapply keeps_run; [|exact Haccum]; subst P; keeps_tac).
  assert (exists a, r2 = Ok a) as ([[[o' t'] g'] l'] & ->).
  { revert Haccum. unfold gradient_accumulation, call_accumulate_gradient,
      config_get, record, modify, gets, ret, bind. simpl.
    destruct (is_not_None _); simpl; intros [= <- <-]; by eexists. }
  rewrite (bind_Ok _ _ _ _ _ Haccum). cbv beta iota.
  exists w2, o', t', g', l'. split; [by eapply extends_trans|done].
Qed.

Lemma fp16_present_getattr w :
  fp16_section_ok w = true ->
  is_not_None (dict_get (gpc_config w) "fp16" VNone) = true ->
  getattr (heap w) (dict_get (gpc_config w) "fp16" VNone) "mode"
  = Ok (configured_amp_mode w).
Proof.
  unfold fp16_section_ok, configured_amp_mode.
  destruct (dict_get (gpc_config w) "fp16" VNone); try done.
  by destruct (getattr _ _ _).
Qed.

Lemma fp16_absent_mode w :
  is_not_None (dict_get (gpc_config w) "fp16" VNone) = false ->
  fp16_mode_naive w = false.
Proof.
  unfold fp16_mode_naive, configured_amp_mode.
  by destruct (dict_get (gpc_config w) "fp16" VNone).
Qed.

(** The run of [initialize] on a well-formed configuration: it is refused
    with the exception [refusal] tells, and otherwise an Engine is made
    whose clip norm is the configured one. *)
Lemma initialize_outcome model optimizer criterion train_dataloader
    test_dataloader lr_scheduler verbose w :
  zero_section_ok w = true ->
  fp16_section_ok w = true ->
  exists w',
    match refusal w with
    | Some e =>
        initialize model optimizer criterion train_dataloader test_dataloader
          lr_scheduler verbose w = (w', Raise e)
    | None =>
        exists engine train_dataloader' lr_scheduler',
          initialize model optimizer criterion train_dataloader
            test_dataloader lr_scheduler verbose w
          = (w', Ok (engine, train_dataloader', test_dataloader,
                     lr_scheduler'))
          /\ engine_clip_grad_norm engine = configured_clip_grad_norm w
    end.
Proof.
  intros Hzero Hfp16.
  pose proof (convert_cases model optimizer criterion verbose w Hzero Hfp16)
    as Hconv.
  unfold refusal. destruct (fp16_mode_set w && zero_present w) eqn:Hboth.
  { destruct Hconv as (w' & Hrun). exists w'. by apply bind_Raise. }
  destruct Hconv as (w1 & model1 & optimizer1 & criterion1 & Hrun).
  destruct (keeps_run _ _ _ _ _ (fun w => convert_extends _ _ _ verbose w) Hrun)
    as (Hheap1 & Hcfg1 & _).
  pose proof (gradient_handler_cases model1 optimizer1 (configured_amp_mode w)
                w1) as Hgh.
  assert (Hg1 : configured_gradient_handler w1 = configured_gradient_handler w)
    by (unfold configured_gradient_handler; by rewrite Hcfg1).
  rewrite Hg1 in Hgh.
  destruct (is_not_None (configured_gradient_handler w)
            && negb (isinstance_list (configured_gradient_handler w))).
  { exists w1. unfold initialize. rewrite (bind_Ok _ _ _ _ _ Hrun).
    cbv beta iota. by apply bind_Raise. }
  destruct Hgh as (w2 & model2 & handlers & Hgh).
  destruct (keeps_run _ _ _ _ _ (keeps_gradient_handler _ _ _) Hgh)
    as (Hheap2 & Hcfg2 & _).
  destruct (assemble_run (dict_get (gpc_config w) "fp16" VNone)
              (dict_get (gpc_config w) "zero" VNone) model2 optimizer1
              criterion1 handlers train_dataloader test_dataloader
              lr_scheduler w2)
    as (w3 & optimizer3 & train_dataloader3 & handlers3 & lr_scheduler3
        & (Hheap3 & Hcfg3 & _) & Hassemble).
  assert (Hheap : heap w ⊆ heap w3) by (do 2 (etrans; [|eassumption]); done).
  assert (Hclip : configured_clip_grad_norm w3 = configured_clip_grad_norm w)
    by (unfold configured_clip_grad_norm; congruence).
  unfold initialize. rewrite (bind_Ok _ _ _ _ _ Hrun). cbv beta iota.
  rewrite (bind_Ok _ _ _ _ _ Hgh). cbv beta iota. rewrite Hassemble.
  unfold bind. rewrite clip_grad_norm_run, Hclip.
  unfold zero_present.
  destruct (py_gt_zero (configured_clip_grad_norm w)) as [[|]|e].
  - destruct (is_not_None (dict_get (gpc_config w) "zero" VNone));
      [by eexists|].
    destruct (is_not_None (dict_get (gpc_config w) "fp16" VNone)) eqn:Hpresent.
    + rewrite (getattr_mono _ _ _ _ _ Hheap
                 (fp16_present_getattr w Hfp16 Hpresent)).
      fold (fp16_mode_naive w).
      destruct (fp16_mode_naive w); [by eexists|].
      unfold call_Engine, record, modify, ret, bind. simpl.
      eexists. do 3 eexists. split; reflexivity.
    + rewrite (fp16_absent_mode w Hpresent).
      unfold call_Engine, record, modify, ret, bind. simpl.
      eexists. do 3 eexists. split; reflexivity.
  - unfold call_Engine, record, modify, ret, bind. simpl.
    eexists. do 3 eexists. split; reflexivity.
  - by eexists.
Qed.

(** ** The claims on the gradient handlers *)

Lemma convert_same_topology model optimizer criterion verbose w w1 r :
  convert model optimizer criterion verbose w = (w1, r) ->
  configured_gradient_handler w1 = configured_gradient_handler w
  /\ is_using_ddp w1 = is_using_ddp w
  /\ is_using_pp w1 = is_using_pp w.
Proof.
  intros Hrun.
  destruct (keeps_run _ _ _ _ _ (fun w => convert_extends _ _ _ verbose w) Hrun)
    as (_ & Hcfg & Hddp & Hpp & _).
  unfold configured_gradient_handler. by rewrite Hcfg.
Qed.

Lemma initialize_after_gradient_handler model optimizer criterion
    train_dataloader test_dataloader lr_scheduler verbose w w1 fp16_cfg
    zero_cfg amp_mode model1 optimizer1 criterion1 w2 model2 handlers :
  convert model optimizer criterion verbose w
  = (w1, Ok (fp16_cfg, zero_cfg, amp_mode, model1, optimizer1, criterion1)) ->
  gradient_handler model1 optimizer1 amp_mode w1
  = (w2, Ok (model2, handlers)) ->
  initialize model optimizer criterion train_dataloader test_dataloader
    lr_scheduler verbose w
  = assemble fp16_cfg zero_cfg model2 optimizer1 criterion1 handlers
      train_dataloader test_dataloader lr_scheduler w2.
Proof.
  intros Hconvert Hgh. unfold initialize.
  rewrite (bind_Ok _ _ _ _ _ Hconvert). cbv beta iota.
  by rewrite (bind_Ok _ _ _ _ _ Hgh).
Qed.

(** C4.  Let [initialize] have come through the conversions with the
    optimizer [optimizer1], and let the configuration have no gradient
    handler entry.  If [optimizer1] is an instance of one of the two
    ZeroRedundancyOptimizer classes, the gradient handlers are exactly one,
    built from the specification [dict(type='ZeROGradientHandler')] made on
    the spot; the model is not wrapped.  Nothing is asked of the topology or
    of the mixed-precision mode. *)
Theorem sharded_optimizer_gets_the_zero_handler model optimizer criterion
    train_dataloader test_dataloader lr_scheduler verbose w w1 fp16_cfg
    zero_cfg amp_mode model1 optimizer1 criterion1 :
  convert model optimizer criterion verbose w
  = (w1, Ok (fp16_cfg, zero_cfg, amp_mode, model1, optimizer1, criterion1)) ->
  configured_gradient_handler w = VNone ->
  isinstance_zero (class_of optimizer1) = true ->
  exists w2 spec,
    let handler :=
      build_gradient_handler (heap w2) (VRef spec) model1 optimizer1 in
    gradient_handler model1 optimizer1 amp_mode w1
    = (w2, Ok (model1, Some [handler]))
    /\ heap w1 !! spec = None
    /\ heap w2 = <[spec := {[ "type" := VStr "ZeROGradientHandler" ]}]> (heap w1)
    /\ calls w2 =
         calls w1 ++ [Call_build_gradient_handler (VRef spec) model1 optimizer1]
    /\ initialize model optimizer criterion train_dataloader test_dataloader
         lr_scheduler verbose w
       = assemble fp16_cfg zero_cfg model1 optimizer1 criterion1
           (Some [handler]) train_dataloader test_dataloader lr_scheduler w2.
Proof.
  intros Hconvert Hcfg Hzero.
  destruct (convert_same_topology _ _ _ _ _ _ _ Hconvert) as (Hcfg1 & _).
  rewrite Hcfg in Hcfg1.
  destruct (gradient_handler_single model1 optimizer1 amp_mode w1 _
              (resolve_zero _ _ _ _ Hcfg1 Hzero))
    as (w2 & spec & Hrun & Hfresh & Hheap & _ & Hcalls).
  exists w2, spec. repeat split; try done.
  by eapply initialize_after_gradient_handler.
Qed.

(** C5.  Let [initialize] have come through the conversions with the model
    [model1], the optimizer [optimizer1] and the mode [amp_mode], and let
    the configuration have no gradient handler entry.  If [optimizer1] is
    not a ZeroRedundancyOptimizer, [is_using_ddp()] holds, [is_using_pp()]
    does not and [amp_mode] is not [AMP_TYPE.NAIVE], then the model becomes
    [DDP(model1, process_group=gpc.get_group(ParallelMode.DATA))], no
    gradient handler is built and [gradient_handlers] is [None]. *)
Theorem data_parallel_alone_wraps_the_model model optimizer criterion
    train_dataloader test_dataloader lr_scheduler verbose w w1 fp16_cfg
    zero_cfg amp_mode model1 optimizer1 criterion1 :
  convert model optimizer criterion verbose w
  = (w1, Ok (fp16_cfg, zero_cfg, amp_mode, model1, optimizer1, criterion1)) ->
  configured_gradient_handler w = VNone ->
  isinstance_zero (class_of optimizer1) = false ->
  is_using_ddp w = true ->
  is_using_pp w = false ->
  py_eq_enum amp_mode "AMP_TYPE" "NAIVE" = false ->
  let wrapped := DDP model1 (gpc_get_group ParallelMode_DATA) in
  gradient_handler model1 optimizer1 amp_mode w1
  = (add_call (Call_DDP model1) w1, Ok (wrapped, None))
  /\ initialize model optimizer criterion train_dataloader test_dataloader
       lr_scheduler verbose w
     = assemble fp16_cfg zero_cfg wrapped optimizer1 criterion1 None
         train_dataloader test_dataloader lr_scheduler
         (add_call (Call_DDP model1) w1).
Proof.
  intros Hconvert Hcfg Hzero Hddp Hpp Hnaive wrapped.
  destruct (convert_same_topology _ _ _ _ _ _ _ Hconvert)
    as (Hcfg1 & Hddp1 & Hpp1).
  rewrite Hcfg in Hcfg1. rewrite Hddp in Hddp1. rewrite Hpp in Hpp1.
  assert (Hrun : gradient_handler model1 optimizer1 amp_mode w1
                 = (add_call (Call_DDP model1) w1, Ok (wrapped, None))).
  { unfold gradient_handler.
    by rewrite (bind_Ok _ _ _ _ _
                  (resolve_ddp _ _ _ _ Hcfg1 Hzero Hddp1 Hpp1 Hnaive)). }
  split; [done|]. by eapply initialize_after_gradient_handler.
Qed.

(** C6.  In the same situation, if [optimizer1] is not a
    ZeroRedundancyOptimizer and both [is_using_ddp()] and [is_using_pp()]
    hold, the gradient handlers are exactly one, built from the
    specification [dict(type='DataParallelGradientHandler')]; the model is
    the one that came out of the conversions and [DDP] is not called. *)
Theorem data_parallel_with_pipeline_gets_a_handler model optimizer criterion
    train_dataloader test_dataloader lr_scheduler verbose w w1 fp16_cfg
    zero_cfg amp_mode model1 optimizer1 criterion1 :
  convert model optimizer criterion verbose w
  = (w1, Ok (fp16_cfg, zero_cfg, amp_mode, model1, optimizer1, criterion1)) ->
  configured_gradient_handler w = VNone ->
  isinstance_zero (class_of optimizer1) = false ->
  is_using_ddp w = true ->
  is_using_pp w = true ->
  exists w2 spec,
    let handler :=
      build_gradient_handler (heap w2) (VRef spec) model1 optimizer1 in
    gradient_handler model1 optimizer1 amp_mode w1
    = (w2, Ok (model1, Some [handler]))
    /\ heap w1 !! spec = None
    /\ heap w2 =
         <[spec := {[ "type" := VStr "DataParallelGradientHandler" ]}]>
           (heap w1)
    /\ calls w2 =
         calls w1 ++ [Call_build_gradient_handler (VRef spec) model1 optimizer1]
    /\ initialize model optimizer criterion train_dataloader test_dataloader
         lr_scheduler verbose w
       = assemble fp16_cfg zero_cfg model1 optimizer1 criterion1
           (Some [handler]) train_dataloader test_dataloader lr_scheduler w2.
Proof.
  intros Hconvert Hcfg Hzero Hddp Hpp.
  destruct (convert_same_topology _ _ _ _ _ _ _ Hconvert)
    as (Hcfg1 & Hddp1 & Hpp1).
  rewrite Hcfg in Hcfg1. rewrite Hddp in Hddp1. rewrite Hpp in Hpp1.
  destruct (gradient_handler_single model1 optimizer1 amp_mode w1 _
              (resolve_data_parallel _ _ _ _ Hcfg1 Hzero Hddp1
                 (or_introl Hpp1)))
    as (w2 & spec & Hrun & Hfresh & Hheap & _ & Hcalls).
  exists w2, spec. repeat split; try done.
  by eapply initialize_after_gradient_handler.
Qed.


(** ** The claims on the clip norm *)


Lemma convert_raises_no_clip model optimizer criterion verbose :
  raises_only (fun e => negb (is_clip_exception e))
    (convert model optimizer criterion verbose).
Proof. raises_tac. Qed.

Lemma gradient_handler_raises_no_clip model optimizer amp_mode :
  raises_only (fun e => negb (is_clip_exception e))
    (gradient_handler model optimizer amp_mode).
Proof. raises_tac. Qed.

(** A run of [initialize] ends before the clip norm is read, with an
    exception that is not one of the clip norm check, or goes on to read it
    in a state that has the configuration it started with. *)
Lemma initialize_reaches_clip model optimizer criterion train_dataloader
    test_dataloader lr_scheduler verbose w w' r :
  initialize model optimizer criterion train_dataloader test_dataloader
    lr_scheduler verbose w = (w', r) ->
  (exists e, r = Raise e /\ is_clip_exception e = false)
  \/ (exists w3 fp16_cfg zero_cfg model' optimizer' criterion' handlers
        train_dataloader' lr_scheduler',
        gpc_config w3 = gpc_config w
        /\ bind (clip_grad_norm fp16_cfg zero_cfg)
             (fun clip =>
                bind (call_Engine model' optimizer' criterion' handlers clip)
                  (fun engine =>
                     ret (engine, train_dataloader', test_dataloader,
                          lr_scheduler')))
             w3 = (w', r)).
Proof.
  unfold initialize. intros H.
  apply bind_inv in H as [(w1 & a & Hconvert & H) | (e & Hconvert & ->)].
  2: { left. exists e. split; [done|].
       apply (raises_only_run _ _ _ _ _ (convert_raises_no_clip _ _ _ _))
         in Hconvert.
       by apply negb_true_iff. }
  destruct a as [[[[[fp16_cfg zero_cfg] amp_mode] model1] optimizer1] criterion1].
  destruct (keeps_run _ _ _ _ _ (fun w => convert_extends _ _ _ verbose w)
              Hconvert) as (_ & Hcfg1 & _).
  apply bind_inv in H as [(w2 & [model2 handlers] & Hgh & H) | (e & Hgh & ->)].
  2: { left. exists e. split; [done|].
       apply (raises_only_run _ _ _ _ _ (gradient_handler_raises_no_clip _ _ _))
         in Hgh.
       by apply negb_true_iff. }
  destruct (keeps_run _ _ _ _ _ (keeps_gradient_handler _ _ _) Hgh)
    as (_ & Hcfg2 & _).
  destruct (assemble_run fp16_cfg zero_cfg model2 optimizer1 criterion1
              handlers train_dataloader test_dataloader lr_scheduler w2)
    as (w3 & optimizer3 & train_dataloader3 & handlers3 & lr_scheduler3
        & (_ & Hcfg3 & _) & Hassemble).
  rewrite Hassemble in H. right.
  exists w3, fp16_cfg, zero_cfg, model2, optimizer3, criterion1, handlers3,
    train_dataloader3, lr_scheduler3.
  split; [congruence|done].
Qed.

(** C10.  Let [clip_grad_norm] be absent from the configuration, or be
    there with a value for which [clip_grad_norm > 0] is false.
    - The threshold passed on is the configured value, 0.0 when the key is
      absent.
    - The clip norm step of lines 361-368 raises nothing, whatever the zero
      and fp16 sections are; from the optimizer check on, [initialize] goes
      through to the Engine, made with that threshold.
    - No run of [initialize] ends with one of the two exceptions of the
      clip norm check, and an Engine that is returned has that threshold.
    - On a well-formed configuration that passes the exclusion check and
      the gradient handler check, an Engine is returned. *)
Theorem clip_check_needs_a_positive_clip model optimizer criterion
    train_dataloader test_dataloader lr_scheduler verbose w :
  gpc_config w !! "clip_grad_norm" = None
  \/ (exists v, gpc_config w !! "clip_grad_norm" = Some v
                /\ py_gt_zero v = Ok false) ->
  (gpc_config w !! "clip_grad_norm" = None ->
   configured_clip_grad_norm w = VFloat 0)
  /\ (forall fp16_cfg zero_cfg model' optimizer' criterion' handlers,
        clip_grad_norm fp16_cfg zero_cfg w
        = (w, Ok (configured_clip_grad_norm w))
        /\ exists w' engine train_dataloader' lr_scheduler',
             assemble fp16_cfg zero_cfg model' optimizer' criterion' handlers
               train_dataloader test_dataloader lr_scheduler w
             = (w', Ok (engine, train_dataloader', test_dataloader,
                        lr_scheduler'))
             /\ engine_clip_grad_norm engine = configured_clip_grad_norm w)
  /\ (forall w' r,
        initialize model optimizer criterion train_dataloader test_dataloader
          lr_scheduler verbose w = (w', r) ->
        match r with
        | Raise e => is_clip_exception e = false
        | Ok (engine, _, _, _) =>
            engine_clip_grad_norm engine = configured_clip_grad_norm w
        end)
  /\ (zero_section_ok w = true ->
      fp16_section_ok w = true ->
      fp16_mode_set w && zero_present w = false ->
      is_not_None (configured_gradient_handler w)
      && negb (isinstance_list (configured_gradient_handler w)) = false ->
      exists w' engine train_dataloader' lr_scheduler',
        initialize model optimizer criterion train_dataloader test_dataloader
          lr_scheduler verbose w
        = (w', Ok (engine, train_dataloader', test_dataloader, lr_scheduler'))
        /\ engine_clip_grad_norm engine = configured_clip_grad_norm w).
Proof.
  intros Hclip.
  assert (Hgt : py_gt_zero (configured_clip_grad_norm w) = Ok false).
  { unfold configured_clip_grad_norm, dict_get.
    by destruct Hclip as [-> | (v & -> & Hv)]. }
  assert (Hstep : forall w3 fp16_cfg zero_cfg model' optimizer' criterion'
                    handlers (train_dataloader' : option Dataloader)
                    (lr_scheduler' : option LrScheduler),
            gpc_config w3 = gpc_config w ->
            exists w',
              bind (clip_grad_norm fp16_cfg zero_cfg)
                (fun clip =>
                   bind (call_Engine model' optimizer' criterion' handlers clip)
                     (fun engine =>
                        ret (engine, train_dataloader', test_dataloader,
                             lr_scheduler')))
                w3
              = (w', Ok ({| engine_model := model';
                            engine_optimizer := optimizer';
                            engine_criterion := criterion';
                            engine_gradient_handlers := handlers;
                            engine_clip_grad_norm :=
                              configured_clip_grad_norm w |},
                         train_dataloader', test_dataloader, lr_scheduler'))).
  { intros w3 ? ? ? ? ? ? ? ? Hcfg. unfold bind.
    rewrite clip_grad_norm_run.
    assert (configured_clip_grad_norm w3 = configured_clip_grad_norm w) as ->
      by (unfold configured_clip_grad_norm; by rewrite Hcfg).
    rewrite Hgt. by eexists. }
  split; [|split; [|split]].
  - unfold configured_clip_grad_norm, dict_get. by intros ->.
  - intros fp16_cfg zero_cfg model' optimizer' criterion' handlers. split.
    + by rewrite clip_grad_norm_run, Hgt.
    + destruct (assemble_run fp16_cfg zero_cfg model' optimizer' criterion'
                  handlers train_dataloader test_dataloader lr_scheduler w)
        as (w3 & optimizer3 & train_dataloader3 & handlers3 & lr_scheduler3
            & (_ & Hcfg3 & _) & ->).
      destruct (Hstep w3 fp16_cfg zero_cfg model' optimizer3 criterion'
                  handlers3 train_dataloader3 lr_scheduler3 Hcfg3)
        as (w' & ->).
      by do 4 eexists.
  - intros w' r Hrun.
    destruct (initialize_reaches_clip _ _ _ _ _ _ _ _ _ _ Hrun)
      as [(e & -> & He) | (w3 & fp16_cfg & zero_cfg & model' & optimizer'
                            & criterion' & handlers & train_dataloader'
                            & lr_scheduler' & Hcfg3 & Hrest)]; [done|].
    destruct (Hstep w3 fp16_cfg zero_cfg model' optimizer' criterion'
                handlers train_dataloader' lr_scheduler' Hcfg3)
      as (w'' & Heq).
    rewrite Heq in Hrest. by inversion Hrest.
  - intros Hzero Hfp16 Hboth Hentry.
    destruct (initialize_outcome model optimizer criterion train_dataloader
                test_dataloader lr_scheduler verbose w Hzero Hfp16)
      as (w' & Hrun).
    unfold refusal in Hrun. rewrite Hboth, Hentry, Hgt in Hrun.
    destruct Hrun as (engine & train_dataloader' & lr_scheduler' & Hrun & Heq).
    by exists w', engine, train_dataloader', lr_scheduler'.
Qed.

(** ** More on the run of [initialize] *)

Lemma keeps_at P {A} (m : M A) w : keeps P m -> extends P w (fst (m w)).
Proof. intros H. apply H. Qed.

Lemma extends_bind_run P {A B} (m : M A) (k : A -> M B) w :
  extends P w (fst (m w)) ->
  (forall a w1, m w = (w1, Ok a) -> extends P w1 (fst (k a w1))) ->
  extends P w (fst (bind m k w)).
Proof.
  intros Hm Hk. unfold bind.
  destruct (m w) as [w1 [a|e]] eqn:Hrun; simpl in *; [|done].
  eapply extends_trans; [exact Hm|]. by apply Hk.
Qed.

Lemma getattr_Raise h v name e :
  getattr h v name = Raise e -> e = AttributeError name.
Proof.
  destruct v; simpl; try by intros [= <-].
  destruct (h !! l) as [d|]; [|by intros [= <-]].
  destruct (d !! name); [done|by intros [= <-]].
Qed.

Lemma startup_flagged model verbose w :
  startup model verbose w = sync_model model (flagged verbose w).
Proof.
  unfold startup.
  rewrite (bind_Ok _ _ w (set_gpc_verbose verbose w) tt eq_refl).
  by rewrite (bind_Ok _ _ _ (flagged verbose w) tt eq_refl).
Qed.

(** Lines 269-273 on a zero entry that is no section with a level. *)
Lemma sync_model_without_level model w :
  is_Some (gpc_config w !! "zero") ->
  zero_section_ok w = false ->
  sync_model model w
  = (add_call (Call_model_to_device model) w, Raise (AttributeError "level")).
Proof.
  intros [zero Hzero]. unfold zero_section_ok. rewrite Hzero.
  destruct (getattr (heap w) zero "level") as [level|e] eqn:Hlevel; [done|].
  intros _. apply getattr_Raise in Hlevel as Heq. subst e.
  unfold sync_model, config_hasattr, config_attr, attr, config_getattr,
    record, modify, lift, gets, ret, bind. simpl.
  repeat (first [rewrite Hzero | rewrite Hlevel]; simpl). done.
Qed.

Lemma startup_same_configuration model verbose w :
  same_configuration w (fst (startup model verbose w)).
Proof.
  rewrite startup_flagged.
  destruct (zero_section_ok (flagged verbose w)) eqn:Hok.
  - destruct (sync_model_run model (flagged verbose w) Hok)
      as (w1 & -> & Hh & Hc & _). by split.
  - destruct (gpc_config w !! "zero") as [zero|] eqn:Hzero.
    + rewrite sync_model_without_level; [done| |done]. simpl. by rewrite Hzero.
    + unfold zero_section_ok in Hok. simpl in Hok. by rewrite Hzero in Hok.
Qed.

Lemma check_amp_and_zero_state fp16_cfg zero_cfg w :
  fst (check_amp_and_zero fp16_cfg zero_cfg w) = w.
Proof.
  unfold check_amp_and_zero, fp16_mode_is_set, attr, lift, ret, raise, bind.
  destruct (is_not_None fp16_cfg); simpl.
  - destruct (getattr (heap w) fp16_cfg "mode") as [mode|e]; simpl; [|done].
    by destruct (is_not_None mode && is_not_None zero_cfg).
  - done.
Qed.


(** X2.  Naive mixed precision keeps the model out of the DDP wrapper: once
    through the conversions with [amp_mode == AMP_TYPE.NAIVE], a non-ZeRO
    optimizer, [is_using_ddp()] and no gradient handler entry, the model is
    left as it is and one handler is built from
    [dict(type='DataParallelGradientHandler')], with or without a
    pipeline. *)
Theorem naive_amp_gets_a_handler model optimizer criterion verbose w w1
    fp16_cfg zero_cfg amp_mode model1 optimizer1 criterion1 :
  convert model optimizer criterion verbose w
  = (w1, Ok (fp16_cfg, zero_cfg, amp_mode, model1, optimizer1, criterion1)) ->
  configured_gradient_handler w = VNone ->
  isinstance_zero (class_of optimizer1) = false ->
  is_using_ddp w = true ->
  py_eq_enum amp_mode "AMP_TYPE" "NAIVE" = true ->
  exists w2 spec,
    gradient_handler model1 optimizer1 amp_mode w1
    = (w2, Ok (model1,
               Some [build_gradient_handler (heap w2) (VRef spec) model1
                       optimizer1]))
    /\ heap w1 !! spec = None
    /\ heap w2 =
         <[spec := {[ "type" := VStr "DataParallelGradientHandler" ]}]>
           (heap w1)
    /\ calls w2 =
         calls w1 ++ [Call_build_gradient_handler (VRef spec) model1 optimizer1].
Proof.
  intros Hconvert Hcfg Hzero Hddp Hnaive.
  destruct (convert_same_topology _ _ _ _ _ _ _ Hconvert)
    as (Hcfg1 & Hddp1 & _).
  rewrite Hcfg in Hcfg1. rewrite Hddp in Hddp1.
  destruct (gradient_handler_single model1 optimizer1 amp_mode w1 _
              (resolve_data_parallel _ _ _ _ Hcfg1 Hzero Hddp1
                 (or_intror Hnaive)))
    as (w2 & spec & Hrun & Hfresh & Hheap & _ & Hcalls).
  by exists w2, spec.
Qed.

(** X3.  Without data parallelism nothing synchronises the gradients: once
    through the conversions with a non-ZeRO optimizer, [is_using_ddp()]
    false and no gradient handler entry, the handler step calls nothing,
    leaves the model as it is and answers [None]. *)
Theorem no_data_parallel_no_handler model optimizer criterion verbose w w1
    fp16_cfg zero_cfg amp_mode model1 optimizer1 criterion1 :
  convert model optimizer criterion verbose w
  = (w1, Ok (fp16_cfg, zero_cfg, amp_mode, model1, optimizer1, criterion1)) ->
  configured_gradient_handler w = VNone ->
  isinstance_zero (class_of optimizer1) = false ->
  is_using_ddp w = false ->
  gradient_handler model1 optimizer1 amp_mode w1 = (w1, Ok (model1, None)).
Proof.
  intros Hconvert Hcfg Hzero Hddp.
  destruct (convert_same_topology _ _ _ _ _ _ _ Hconvert)
    as (Hcfg1 & Hddp1 & _).
  rewrite Hcfg in Hcfg1. rewrite Hddp in Hddp1.
  unfold gradient_handler.
  by rewrite (bind_Ok _ _ _ _ _ (resolve_nothing _ _ amp_mode _ Hcfg1 Hzero
                                   Hddp1)).
Qed.

(** X4.  A [zero] entry that is no section with a [level] ([None], a
    number, a section without the key) stops [initialize] on line 271 with
    an [AttributeError]: the model has been moved to the device, and nothing
    else has been called. *)
Theorem zero_entry_without_level model optimizer criterion train_dataloader
    test_dataloader lr_scheduler verbose w :
  is_Some (gpc_config w !! "zero") ->
  zero_section_ok w = false ->
  exists w',
    initialize model optimizer criterion train_dataloader test_dataloader
      lr_scheduler verbose w = (w', Raise (AttributeError "level"))
    /\ heap w' = heap w
    /\ calls w' = calls w ++ [Call_model_to_device model].
Proof.
  intros Hsome Hok. eexists. split; [|split].
  - unfold initialize, convert. rewrite !bind_assoc.
    apply bind_Raise. rewrite startup_flagged.
    by apply sync_model_without_level.
  - done.
  - done.
Qed.

(** X5.  An [fp16] entry other than [None] that is no section with a [mode]
    stops [initialize] on line 279 with an [AttributeError]: by then the
    model has been moved and, unless zero level 3 is configured,
    synchronised; no converter has been called. *)
Theorem fp16_entry_without_mode model optimizer criterion train_dataloader
    test_dataloader lr_scheduler verbose w :
  zero_section_ok w = true ->
  fp16_section_ok w = false ->
  exists w',
    initialize model optimizer criterion train_dataloader test_dataloader
      lr_scheduler verbose w = (w', Raise (AttributeError "mode"))
    /\ heap w' = heap w
    /\ calls w' =
         calls w ++ Call_model_to_device model
           :: (if zero_level_3 w then []
               else [Call_sync_model_param_in_dp model]).
Proof.
  intros Hzero Hfp16.
  destruct (startup_run model verbose w Hzero)
    as (w1 & Hrun & [Hh Hc] & _ & _ & Hcalls).
  exists w1. split; [|by split].
  unfold initialize, convert. rewrite bind_assoc, (bind_Ok _ _ _ _ _ Hrun).
  apply bind_Raise. unfold check_and_convert.
  rewrite (bind_Ok _ _ w1 w1 (dict_get (gpc_config w1) "fp16" VNone) eq_refl).
  rewrite (bind_Ok _ _ w1 w1 (dict_get (gpc_config w1) "zero" VNone) eq_refl).
  apply bind_Raise. apply bind_Raise.
  revert Hfp16. unfold fp16_section_ok, fp16_mode_is_set, attr, lift, bind.
  rewrite Hc.
  destruct (dict_get (gpc_config w) "fp16" VNone) eqn:Hcfg; try done; simpl.
  rewrite Hh. destruct (heap w !! l) as [d|]; [|done].
  by destruct (d !! "mode").
Qed.

(** ** What the converters are handed *)

Lemma copy_pop_at {A} l d key x (k : value -> value -> M A) w :
  heap w !! l = Some d ->
  d !! key = Some x ->
  bind (copy (VRef l)) (fun cfg_ => bind (pop cfg_ key) (k cfg_)) w
  = k (VRef (fresh (dom (heap w)))) x
      (set_heap (<[fresh (dom (heap w)) := delete key d]> (heap w)) w).
Proof.
  intros Hl Hx. unfold copy, lift, alloc, pop, bind. simpl. rewrite Hl. simpl.
  rewrite lookup_insert_eq, Hx. simpl. by rewrite insert_insert_eq.
Qed.

(** X6.  With an fp16 section whose mode is set and no zero entry,
    [convert_to_amp] is called once, on the model, optimizer and criterion
    of the caller, with the mode of the section and with a new dict object
    that has the entries of the section but for [mode]; the section itself
    is as it was.  The call follows the move to the device and the
    synchronisation. *)
Theorem amp_converter_gets_a_copy model optimizer criterion verbose w section
    entries mode :
  gpc_config w !! "fp16" = Some (VRef section) ->
  heap w !! section = Some entries ->
  entries !! "mode" = Some mode ->
  is_not_None mode = true ->
  gpc_config w !! "zero" = None ->
  exists w1 cfg_,
    (let '(model', optimizer', criterion') :=
       convert_to_amp (heap w1) model optimizer criterion mode (VRef cfg_) in
     convert model optimizer criterion verbose w
     = (w1, Ok (VRef section, VNone, mode, model', optimizer', criterion')))
    /\ heap w !! cfg_ = None
    /\ heap w1 = <[cfg_ := delete "mode" entries]> (heap w)
    /\ heap w1 !! section = Some entries
    /\ calls w1 =
         calls w ++ [Call_model_to_device model;
                     Call_sync_model_param_in_dp model;
                     Call_convert_to_amp model optimizer criterion mode
                       (VRef cfg_)].
Proof.
  intros Hfp16 Hsection Hmode Hset Hzero.
  assert (Hgetfp16 : dict_get (gpc_config w) "fp16" VNone = VRef section)
    by (unfold dict_get; by rewrite Hfp16).
  assert (Hgetzero : dict_get (gpc_config w) "zero" VNone = VNone)
    by (unfold dict_get; by rewrite Hzero).
  assert (Hzok : zero_section_ok w = true)
    by (unfold zero_section_ok; by rewrite Hzero).
  assert (Hl3 : zero_level_3 w = false)
    by (unfold zero_level_3; by rewrite Hzero).
  assert (Hamp : configured_amp_mode w = mode).
  { unfold configured_amp_mode. rewrite Hgetfp16. simpl.
    by rewrite Hsection, Hmode. }
  assert (Hfok : fp16_section_ok w = true).
  { unfold fp16_section_ok. rewrite Hgetfp16. simpl.
    by rewrite Hsection, Hmode. }
  assert (Hms : fp16_mode_set w = true)
    by (unfold fp16_mode_set; by rewrite Hamp).
  assert (Hzp : zero_present w = false)
    by (unfold zero_present; by rewrite Hgetzero).
  destruct (startup_run model verbose w Hzok)
    as (w0 & Hrun & [Hh Hc] & _ & _ & Hcalls).
  rewrite Hl3 in Hcalls.
  destruct (same_configuration_predicates w w0 (conj Hh Hc))
    as (_ & Hf0 & _ & Hm0 & _ & Hp0).
  set (cfg_ := fresh (dom (heap w))).
  set (h1 := <[cfg_ := delete "mode" entries]> (heap w)).
  set (w1 := add_call (Call_convert_to_amp model optimizer criterion mode
                         (VRef cfg_)) (set_heap h1 w0)).
  assert (Hfresh : heap w !! cfg_ = None)
    by apply not_elem_of_dom, is_fresh.
  exists w1, cfg_. split; [|repeat split; try done].
  - assert (Heq : heap w1 = h1) by done. rewrite Heq.
    destruct (convert_to_amp h1 model optimizer criterion mode (VRef cfg_))
      as [[model' optimizer'] criterion'] eqn:Hconverted.
    assert (Hset0 : fp16_mode_is_set (VRef section) w0 = (w0, Ok true)).
    { rewrite <- Hgetfp16, <- Hc, fp16_mode_is_set_run by congruence.
      by rewrite Hm0, Hms. }
    assert (Hamp_run :
      initialize_amp (VRef section) model optimizer criterion w0
      = (w1, Ok (mode, model', optimizer', criterion'))).
    { unfold initialize_amp. rewrite (bind_Ok _ _ _ _ _ Hset0).
      cbv beta iota.
      rewrite (copy_pop_at section entries "mode" mode) by congruence.
      rewrite Hh. fold cfg_ h1.
      unfold call_convert_to_amp, record, modify, gets, ret, bind. simpl.
      fold w1. by rewrite Hconverted. }
    unfold convert. rewrite (bind_Ok _ _ _ _ _ Hrun).
    rewrite check_and_convert_run by congruence.
    rewrite Hm0, Hp0, Hms, Hzp, Hc, Hgetfp16, Hgetzero. simpl.
    unfold apply_converters.
    rewrite bind_assoc, (bind_Ok _ _ _ _ _ Hamp_run). by cbv beta iota.
  - subst w1 h1. simpl. rewrite lookup_insert_ne; [done|].
    intros ->. congruence.
  - subst w1. simpl. rewrite Hcalls. by rewrite <- app_assoc.
Qed.

(** X7.  With a zero section and no fp16 mode set, [convert_to_zero] is
    called once, on the model and the optimizer of the caller, with the
    level of the section and with a new dict object that has the entries of
    the section but for [level]; the section itself is as it was, the
    criterion is not converted and [amp_mode] is [None].  With level 3 no
    synchronisation comes before the call. *)
Theorem zero_converter_gets_a_copy model optimizer criterion verbose w section
    entries level :
  gpc_config w !! "zero" = Some (VRef section) ->
  heap w !! section = Some entries ->
  entries !! "level" = Some level ->
  fp16_section_ok w = true ->
  fp16_mode_set w = false ->
  exists w1 cfg_,
    (let '(model', optimizer') :=
       convert_to_zero (heap w1) model optimizer level (VRef cfg_) in
     convert model optimizer criterion verbose w
     = (w1, Ok (dict_get (gpc_config w) "fp16" VNone, VRef section, VNone,
                model', optimizer', criterion)))
    /\ heap w !! cfg_ = None
    /\ heap w1 = <[cfg_ := delete "level" entries]> (heap w)
    /\ heap w1 !! section = Some entries
    /\ calls w1 =
         calls w ++ Call_model_to_device model
           :: (if py_eq_int level 3 then []
               else [Call_sync_model_param_in_dp model])
           ++ [Call_convert_to_zero model optimizer level (VRef cfg_)].
Proof.
  intros Hzero Hsection Hlevel Hfok Hms.
  assert (Hgetzero : dict_get (gpc_config w) "zero" VNone = VRef section)
    by (unfold dict_get; by rewrite Hzero).
  assert (Hzok : zero_section_ok w = true).
  { unfold zero_section_ok. rewrite Hzero. simpl. by rewrite Hsection, Hlevel. }
  assert (Hl3 : zero_level_3 w = py_eq_int level 3).
  { unfold zero_level_3. rewrite Hzero. simpl. by rewrite Hsection, Hlevel. }
  assert (Hamp : configured_amp_mode w = VNone).
  { unfold fp16_mode_set in Hms. by destruct (configured_amp_mode w). }
  destruct (startup_run model verbose w Hzok)
    as (w0 & Hrun & [Hh Hc] & _ & _ & Hcalls).
  rewrite Hl3 in Hcalls.
  destruct (same_configuration_predicates w w0 (conj Hh Hc))
    as (_ & Hf0 & _ & Hm0 & _ & Hp0).
  set (cfg_ := fresh (dom (heap w))).
  set (h1 := <[cfg_ := delete "level" entries]> (heap w)).
  set (w1 := add_call (Call_convert_to_zero model optimizer level (VRef cfg_))
               (set_heap h1 w0)).
  assert (Hfresh : heap w !! cfg_ = None)
    by apply not_elem_of_dom, is_fresh.
  exists w1, cfg_. split; [|repeat split; try done].
  - assert (Heq : heap w1 = h1) by done. rewrite Heq.
    destruct (convert_to_zero h1 model optimizer level (VRef cfg_))
      as [model' optimizer'] eqn:Hconverted.
    assert (Hnone : initialize_amp (dict_get (gpc_config w) "fp16" VNone)
                      model optimizer criterion w0
                    = (w0, Ok (VNone, model, optimizer, criterion))).
    { unfold initialize_amp.
      assert (Hset0 : fp16_mode_is_set (dict_get (gpc_config w) "fp16" VNone)
                        w0 = (w0, Ok false)).
      { rewrite <- Hc, fp16_mode_is_set_run by congruence.
        by rewrite Hm0, Hms. }
      by rewrite (bind_Ok _ _ _ _ _ Hset0). }
    assert (Hzero_run :
      initialize_zero (VRef section) model optimizer w0
      = (w1, Ok (model', optimizer'))).
    { unfold initialize_zero. simpl.
      rewrite (copy_pop_at section entries "level" level) by congruence.
      rewrite Hh. fold cfg_ h1.
      unfold call_convert_to_zero, record, modify, gets, ret, bind. simpl.
      fold w1. by rewrite Hconverted. }
    unfold convert. rewrite (bind_Ok _ _ _ _ _ Hrun).
    rewrite check_and_convert_run by congruence.
    rewrite Hm0, Hp0, Hms, Hc, Hgetzero. simpl.
    unfold apply_converters.
    rewrite bind_assoc, (bind_Ok _ _ _ _ _ Hnone). cbv beta iota.
    by rewrite bind_assoc, (bind_Ok _ _ _ _ _ Hzero_run).
  - subst w1 h1. simpl. rewrite lookup_insert_ne; [done|].
    intros ->. congruence.
  - subst w1. simpl. rewrite Hcalls. by rewrite <- app_assoc.
Qed.

(** ** The flags *)















(** ** Which converters run *)

Lemma extends_new P w w' new :
  extends P w w' -> calls w' = calls w ++ new -> forallb P new = true.
Proof.
  intros (_ & _ & _ & _ & new' & Hnew' & HP) Hnew.
  rewrite Hnew in Hnew'. by apply app_inv_head in Hnew' as ->.
Qed.

Lemma startup_Ok_configuration model verbose w w1 r :
  startup model verbose w = (w1, r) ->
  gpc_config w1 = gpc_config w
  /\ fp16_mode_set w1 = fp16_mode_set w
  /\ fp16_section_ok w1 = fp16_section_ok w
  /\ zero_present w1 = zero_present w.
Proof.
  intros Hrun. pose proof (startup_same_configuration model verbose w) as Hsame.
  rewrite Hrun in Hsame. simpl in Hsame.
  destruct (same_configuration_predicates _ _ Hsame)
    as (_ & Hf & _ & Hm & _ & Hp).
  by destruct Hsame.
Qed.

(** What remains of [check_and_convert] past the two reads and the check. *)
Lemma check_and_convert_extends P model optimizer criterion w :
  (forall fp16_cfg zero_cfg,
     fp16_cfg = dict_get (gpc_config w) "fp16" VNone ->
     zero_cfg = dict_get (gpc_config w) "zero" VNone ->
     snd (check_amp_and_zero fp16_cfg zero_cfg w) = Ok tt ->
     extends P w
       (fst (apply_converters fp16_cfg zero_cfg model optimizer criterion w))) ->
  extends P w (fst (check_and_convert model optimizer criterion w)).
Proof.
  intros Hrest. unfold check_and_convert.
  rewrite (bind_Ok _ _ w w (dict_get (gpc_config w) "fp16" VNone) eq_refl).
  rewrite (bind_Ok _ _ w w (dict_get (gpc_config w) "zero" VNone) eq_refl).
  apply extends_bind_run.
  - rewrite check_amp_and_zero_state. apply extends_refl.
  - intros [] w1 Hcheck.
    pose proof (check_amp_and_zero_state
                  (dict_get (gpc_config w) "fp16" VNone)
                  (dict_get (gpc_config w) "zero" VNone) w) as Hstate.
    rewrite Hcheck in Hstate. simpl in Hstate. subst w1.
    apply extends_bind_run.
    + apply Hrest; try done. by rewrite Hcheck.
    + intros [[[amp_mode model1] optimizer1] criterion1] w2 _.
      apply extends_refl.
Qed.

Lemma initialize_amp_without_mode model optimizer criterion w :
  fp16_mode_set w = false ->
  fst (initialize_amp (dict_get (gpc_config w) "fp16" VNone) model optimizer
         criterion w) = w.
Proof.
  unfold initialize_amp, fp16_mode_is_set, fp16_mode_set, configured_amp_mode,
    attr, lift, ret, bind.
  destruct (dict_get (gpc_config w) "fp16" VNone); simpl; try done.
  destruct (heap w !! l) as [d|]; simpl; [|done].
  destruct (d !! "mode") as [mode|]; simpl; [|done].
  by intros ->.
Qed.

Lemma no_amp_without_mode model optimizer criterion train_dataloader
    test_dataloader lr_scheduler verbose w :
  fp16_mode_set w = false ->
  extends (fun c => negb (is_convert_to_amp_call c)) w
    (fst (initialize model optimizer criterion train_dataloader
            test_dataloader lr_scheduler verbose w)).
Proof.
  intros Hset. unfold initialize. apply extends_bind_run.
  2: { intros [[[[[fp16_cfg zero_cfg] amp_mode] model1] optimizer1]
                 criterion1] w1 _.
       cbv beta iota. apply keeps_at. keeps_tac. }
  unfold convert. apply extends_bind_run; [apply keeps_at; keeps_tac|].
  intros [] w1 Hstart.
  destruct (startup_Ok_configuration _ _ _ _ _ Hstart) as (Hc & Hm & _).
  apply check_and_convert_extends.
  intros fp16_cfg zero_cfg -> -> _.
  unfold apply_converters. apply extends_bind_run.
  - rewrite initialize_amp_without_mode by congruence. apply extends_refl.
  - intros [[[amp_mode model1] optimizer1] criterion1] w2 _.
    apply keeps_at. keeps_tac.
Qed.

Lemma no_zero_without_section model optimizer criterion train_dataloader
    test_dataloader lr_scheduler verbose w :
  zero_present w = false ->
  extends (fun c => negb (is_convert_to_zero_call c)) w
    (fst (initialize model optimizer criterion train_dataloader
            test_dataloader lr_scheduler verbose w)).
Proof.
  intros Hpresent. unfold initialize. apply extends_bind_run.
  2: { intros [[[[[fp16_cfg zero_cfg] amp_mode] model1] optimizer1]
                 criterion1] w1 _.
       cbv beta iota. apply keeps_at. keeps_tac. }
  unfold convert. apply extends_bind_run; [apply keeps_at; keeps_tac|].
  intros [] w1 Hstart.
  destruct (startup_Ok_configuration _ _ _ _ _ Hstart) as (Hc & _ & _ & Hp).
  apply check_and_convert_extends.
  intros fp16_cfg zero_cfg -> -> _.
  assert (dict_get (gpc_config w1) "zero" VNone = VNone) as ->.
  { rewrite Hpresent in Hp. unfold zero_present in Hp.
    by destruct (dict_get (gpc_config w1) "zero" VNone). }
  unfold apply_converters. apply extends_bind_run.
  - apply keeps_at. keeps_tac.
  - intros [[[amp_mode model1] optimizer1] criterion1] w2 _.
    apply extends_refl.
Qed.

Lemma no_accumulation_without_entry model optimizer criterion
    train_dataloader test_dataloader lr_scheduler verbose w :
  is_not_None (configured_gradient_accumulation w) = false ->
  extends (fun c => negb (is_accumulate_gradient_call c)) w
    (fst (initialize model optimizer criterion train_dataloader
            test_dataloader lr_scheduler verbose w)).
Proof.
  set (P := fun c => negb (is_accumulate_gradient_call c)).
  intros Hentry. unfold initialize.
  apply extends_bind_run; [apply keeps_at; subst P; keeps_tac|].
  intros [[[[[fp16_cfg zero_cfg] amp_mode] model1] optimizer1] criterion1]
    w1 Hconvert.
  destruct (keeps_run _ _ _ _ _ (fun w => convert_extends _ _ _ verbose w)
              Hconvert) as (_ & Hc1 & _).
  cbv beta iota.
  apply extends_bind_run; [apply keeps_at; subst P; keeps_tac|].
  intros [model2 handlers] w2 Hgh.
  destruct (keeps_run _ _ _ _ _ (keeps_gradient_handler _ _ _) Hgh)
    as (_ & Hc2 & _).
  unfold assemble.
  apply extends_bind_run; [apply keeps_at; subst P; keeps_tac|].
  intros optimizer3 w3 Hcheck.
  assert (Hc3 : gpc_config w3 = gpc_config w2).
  { eapply (keeps_run P); [|exact Hcheck]. subst P. keeps_tac. }
  apply extends_bind_run.
  - unfold gradient_accumulation, config_get, gets, bind. simpl.
    unfold configured_gradient_accumulation in Hentry.
    rewrite Hc3, Hc2, Hc1, Hentry. apply extends_refl.
  - intros [[[optimizer4 train_dataloader4] handlers4] lr_scheduler4] w4 _.
    apply keeps_at. subst P. keeps_tac.
Qed.

Lemma no_conversion_when_both model optimizer criterion train_dataloader
    test_dataloader lr_scheduler verbose w :
  fp16_mode_set w = true ->
  zero_present w = true ->
  extends (fun c => negb (is_conversion_call c)) w
    (fst (initialize model optimizer criterion train_dataloader
            test_dataloader lr_scheduler verbose w)).
Proof.
  intros Hset Hpresent. unfold initialize, convert. rewrite bind_assoc.
  apply extends_bind_run; [apply keeps_at; keeps_tac|].
  intros [] w1 Hstart.
  destruct (startup_Ok_configuration _ _ _ _ _ Hstart) as (Hc & Hm & Hf & Hp).
  unfold bind at 1.
  rewrite check_and_convert_run
    by (rewrite Hf; by apply fp16_mode_set_section_ok).
  rewrite Hm, Hp, Hset, Hpresent. simpl. apply extends_refl.
Qed.

(** X9.  A converter runs only where the configuration asks for it, and
    the two of lines 288 and 297 never run in the same call: among the calls
    of a run, however it ends, [convert_to_amp] is found only with an fp16
    mode set, [convert_to_zero] only with a zero section,
    [accumulate_gradient] only with a [gradient_accumulation] entry, and
    [convert_to_amp] and [convert_to_zero] not both. *)
Theorem converters_run_as_configured model optimizer criterion
    train_dataloader test_dataloader lr_scheduler verbose w :
  exists new,
    calls (fst (initialize model optimizer criterion train_dataloader
                  test_dataloader lr_scheduler verbose w))
    = calls w ++ new
    /\ (existsb is_convert_to_amp_call new = true -> fp16_mode_set w = true)
    /\ (existsb is_convert_to_zero_call new = true -> zero_present w = true)
    /\ (existsb is_accumulate_gradient_call new = true ->
        is_not_None (configured_gradient_accumulation w) = true)
    /\ existsb is_convert_to_amp_call new
       && existsb is_convert_to_zero_call new = false.
Proof.
  destruct (keeps_initialize (fun _ => true) model optimizer criterion
              train_dataloader test_dataloader lr_scheduler verbose
              (fun _ => eq_refl) w) as (_ & _ & _ & _ & new & Hnew & _).
  assert (Hamp : fp16_mode_set w = false ->
                 existsb is_convert_to_amp_call new = false).
  { intros H. apply negb_true_iff. rewrite <- forallb_negb_existsb.
    eapply extends_new; [by apply no_amp_without_mode|exact Hnew]. }
  assert (Hzero : zero_present w = false ->
                  existsb is_convert_to_zero_call new = false).
  { intros H. apply negb_true_iff. rewrite <- forallb_negb_existsb.
    eapply extends_new; [by apply no_zero_without_section|exact Hnew]. }
  assert (Haccum : is_not_None (configured_gradient_accumulation w) = false ->
                   existsb is_accumulate_gradient_call new = false).
  { intros H. apply negb_true_iff. rewrite <- forallb_negb_existsb.
    eapply extends_new; [by apply no_accumulation_without_entry|exact Hnew]. }
  exists new. split; [done|]. repeat split.
  - destruct (fp16_mode_set w); [done|]. rewrite Hamp; done.
  - destruct (zero_present w); [done|]. rewrite Hzero; done.
  - destruct (is_not_None _); [done|]. rewrite Haccum; done.
  - destruct (fp16_mode_set w) eqn:Hset; [|by rewrite Hamp].
    destruct (zero_present w) eqn:Hpresent;
      [|rewrite Hzero by done; apply andb_false_r].
    assert (Hnone : forallb (fun c => negb (is_conversion_call c)) new = true)
      by (eapply extends_new; [by apply no_conversion_when_both|exact Hnew]).
    assert (Himp : existsb is_convert_to_amp_call new = false).
    { clear -Hnone. induction new as [|c new IH]; [done|].
      simpl in *. apply andb_true_iff in Hnone as [Hc Hrest].
      rewrite IH by done. by destruct c. }
    by rewrite Himp.
Qed.

(** ** The tail of [initialize]: optimizer, accumulation, Engine *)

Lemma check_optimizer_run optimizer w :
  check_optimizer optimizer w
  = (if isinstance_colossalai_or_zero (class_of optimizer) then w
     else add_call (Call_ColossalaiOptimizer optimizer) w,
     Ok (checked_optimizer optimizer)).
Proof.
  unfold check_optimizer, checked_optimizer, call_ColossalaiOptimizer, record,
    modify, ret, bind.
  by destruct (isinstance_colossalai_or_zero _).
Qed.

Lemma gradient_accumulation_run model optimizer train_dataloader
    gradient_handlers lr_scheduler w :
  gradient_accumulation model optimizer train_dataloader gradient_handlers
    lr_scheduler w
  = (if is_not_None (configured_gradient_accumulation w) then
       add_call (Call_accumulate_gradient model optimizer train_dataloader
                   (configured_gradient_accumulation w) gradient_handlers
                   lr_scheduler) w
     else w,
     Ok (accumulated (configured_gradient_accumulation w) model optimizer
           train_dataloader gradient_handlers lr_scheduler)).
Proof.
  unfold gradient_accumulation, accumulated, configured_gradient_accumulation,
    call_accumulate_gradient, config_get, record, modify, gets, ret, bind.
  simpl. by destruct (is_not_None _).
Qed.

Lemma clip_grad_norm_Ok fp16_cfg zero_cfg w w' clip :
  clip_grad_norm fp16_cfg zero_cfg w = (w', Ok clip) ->
  w' = w /\ clip = configured_clip_grad_norm w.
Proof.
  rewrite clip_grad_norm_run.
  destruct (py_gt_zero _) as [[|]|e]; try by intros [= <- <-].
  destruct (is_not_None zero_cfg); [done|].
  destruct (is_not_None fp16_cfg); [|by intros [= <- <-]].
  destruct (getattr _ _ _) as [mode|e]; [|done].
  destruct (py_eq_enum _ _ _); [done|by intros [= <- <-]].
Qed.

Lemma assemble_Ok fp16_cfg zero_cfg model optimizer criterion
    gradient_handlers train_dataloader test_dataloader lr_scheduler w w'
    engine train_dataloader' test_dataloader' lr_scheduler' :
  assemble fp16_cfg zero_cfg model optimizer criterion gradient_handlers
    train_dataloader test_dataloader lr_scheduler w
  = (w', Ok (engine, train_dataloader', test_dataloader', lr_scheduler')) ->
  (engine_optimizer engine, train_dataloader',
   engine_gradient_handlers engine, lr_scheduler')
  = accumulated (configured_gradient_accumulation w) model
      (checked_optimizer optimizer) train_dataloader gradient_handlers
      lr_scheduler
  /\ engine_model engine = model
  /\ engine_criterion engine = criterion
  /\ engine_clip_grad_norm engine = configured_clip_grad_norm w
  /\ test_dataloader' = test_dataloader
  /\ heap w' = heap w
  /\ calls w' =
       calls w
       ++ tail_calls (configured_gradient_accumulation w) model optimizer
            train_dataloader gradient_handlers lr_scheduler
       ++ [Call_Engine engine].
Proof.
  unfold assemble. rewrite (bind_Ok _ _ _ _ _ (check_optimizer_run _ _)).
  rewrite (bind_Ok _ _ _ _ _ (gradient_accumulation_run _ _ _ _ _ _)).
  set (w1 := if isinstance_colossalai_or_zero (class_of optimizer) then w
             else add_call (Call_ColossalaiOptimizer optimizer) w).
  assert (Hsize : configured_gradient_accumulation w1
                  = configured_gradient_accumulation w)
    by (subst w1; by destruct (isinstance_colossalai_or_zero _)).
  rewrite Hsize.
  set (size := configured_gradient_accumulation w).
  set (w2 := if is_not_None size then add_call _ w1 else w1).
  destruct (accumulated size model (checked_optimizer optimizer)
              train_dataloader gradient_handlers lr_scheduler)
    as [[[optimizer4 train_dataloader4] handlers4] lr_scheduler4] eqn:Haccum.
  cbv beta iota. intros Hrun.
  apply bind_inv in Hrun as [(w3 & clip & Hclip & Hrun)|(e & _ & [=])].
  apply clip_grad_norm_Ok in Hclip as [-> ->].
  revert Hrun. unfold call_Engine, record, modify, ret, bind. simpl.
  intros [= <- <- <- <- <-]. simpl.
  assert (Hclip : configured_clip_grad_norm w2 = configured_clip_grad_norm w).
  { subst w2 w1. destruct (is_not_None size);
      by destruct (isinstance_colossalai_or_zero _). }
  assert (Hheap : heap w2 = heap w).
  { subst w2 w1. destruct (is_not_None size);
      by destruct (isinstance_colossalai_or_zero _). }
  repeat split; try done.
  unfold tail_calls. subst w2 w1. fold size.
  destruct (is_not_None size);
    destruct (isinstance_colossalai_or_zero _); simpl;
    by rewrite <- ?app_assoc.
Qed.

(** X10.  The Engine is the last thing [initialize] makes, and it is made
    exactly when the call returns: a run that returns has ended with the one
    call of [Engine], the engine of that call is the one returned, its clip
    norm is the configured one, and the test dataloader comes back as it was
    passed; a run that raises has made no Engine. *)
Theorem engine_is_built_last model optimizer criterion train_dataloader
    test_dataloader lr_scheduler verbose w :
  let run :=
    initialize model optimizer criterion train_dataloader test_dataloader
      lr_scheduler verbose w in
  match snd run with
  | Ok (engine, train_dataloader', test_dataloader', lr_scheduler') =>
      test_dataloader' = test_dataloader
      /\ engine_clip_grad_norm engine = configured_clip_grad_norm w
      /\ exists before,
           calls (fst run) = calls w ++ before ++ [Call_Engine engine]
           /\ existsb is_Engine_call before = false
  | Raise _ =>
      exists new,
        calls (fst run) = calls w ++ new
        /\ existsb is_Engine_call new = false
  end.
Proof.
  set (P := fun c => negb (is_Engine_call c)).
  intros run.
  destruct run as [w' [[[[engine train_dataloader'] test_dataloader']
                          lr_scheduler']|e]] eqn:Hrun; subst run; simpl.
  2: { destruct (raise_before_Engine _ _ _ _ _ _ _ _ _ _ Hrun)
         as (_ & _ & _ & _ & new & Hnew & HP).
       exists new. split; [done|].
       apply negb_true_iff. by rewrite <- forallb_negb_existsb. }
  unfold initialize in Hrun.
  apply bind_inv in Hrun
    as [(w1 & [[[[[fp16_cfg zero_cfg] amp_mode] model1] optimizer1] criterion1]
         & Hconvert & Hrun)|(e & _ & [=])].
  cbv beta iota in Hrun.
  apply bind_inv in Hrun
    as [(w2 & [model2 handlers] & Hgh & Hrun)|(e & _ & [=])].
  cbv beta iota in Hrun.
  assert (H1 : extends P w w1)
    by (eapply (keeps_run P); [|exact Hconvert]; subst P; keeps_tac).
  assert (H2 : extends P w1 w2)
    by (eapply (keeps_run P); [|exact Hgh]; subst P; keeps_tac).
  destruct (extends_trans _ _ _ _ H1 H2) as (_ & Hcfg & _ & _ & new & Hnew & HP).
  apply assemble_Ok in Hrun
    as (_ & _ & _ & Hclip & -> & _ & Hcalls).
  split; [done|]. split.
  { rewrite Hclip. unfold configured_clip_grad_norm. by rewrite Hcfg. }
  eexists (new ++ tail_calls _ _ _ _ _ _). split.
  - by rewrite Hcalls, Hnew, <- !app_assoc.
  - rewrite existsb_app. apply orb_false_iff. split.
    + apply negb_true_iff. by rewrite <- forallb_negb_existsb.
    + unfold tail_calls.
      destruct (isinstance_colossalai_or_zero _);
        by destruct (is_not_None _).
Qed.

(** X11.  What the Engine is made of.  Let [initialize] have come through
    the conversions with [optimizer1] and [criterion1] and through the
    handler step with [model2] and [handlers].  When the call returns, the
    optimizer has been wrapped in [ColossalaiOptimizer] unless it is an
    instance of that class or of a ZeroRedundancyOptimizer; with a
    [gradient_accumulation] entry the wrapped optimizer, the train
    dataloader, the handlers and the scheduler are the four that
    [accumulate_gradient] answers, without one they are unchanged; the
    Engine holds [model2], that optimizer, [criterion1] and those handlers;
    and the calls since the handler step are the wrapper, the accumulation
    and the Engine, in that order and where they apply. *)
Theorem what_the_engine_is_made_of model optimizer criterion train_dataloader
    test_dataloader lr_scheduler verbose w w1 fp16_cfg zero_cfg amp_mode
    model1 optimizer1 criterion1 w2 model2 handlers w' engine
    train_dataloader' test_dataloader' lr_scheduler' :
  convert model optimizer criterion verbose w
  = (w1, Ok (fp16_cfg, zero_cfg, amp_mode, model1, optimizer1, criterion1)) ->
  gradient_handler model1 optimizer1 amp_mode w1
  = (w2, Ok (model2, handlers)) ->
  initialize model optimizer criterion train_dataloader test_dataloader
    lr_scheduler verbose w
  = (w', Ok (engine, train_dataloader', test_dataloader', lr_scheduler')) ->
  let size := configured_gradient_accumulation w in
  (engine_optimizer engine, train_dataloader',
   engine_gradient_handlers engine, lr_scheduler')
  = (if is_not_None size then
       accumulate_gradient model2 (checked_optimizer optimizer1)
         train_dataloader size handlers lr_scheduler
     else (checked_optimizer optimizer1, train_dataloader, handlers,
           lr_scheduler))
  /\ engine_model engine = model2
  /\ engine_criterion engine = criterion1
  /\ calls w' =
       calls w2
       ++ (if isinstance_colossalai_or_zero (class_of optimizer1) then []
           else [Call_ColossalaiOptimizer optimizer1])
       ++ (if is_not_None size then
             [Call_accumulate_gradient model2 (checked_optimizer optimizer1)
                train_dataloader size handlers lr_scheduler]
           else [])
       ++ [Call_Engine engine].
Proof.
  intros Hconvert Hgh Hrun size.
  rewrite (initialize_after_gradient_handler _ _ _ _ _ _ _ _ _ _ _ _ _ _ _ _
             _ _ Hconvert Hgh) in Hrun.
  destruct (keeps_run _ _ _ _ _ (fun w => convert_extends _ _ _ verbose w)
              Hconvert) as (_ & Hc1 & _).
  destruct (keeps_run _ _ _ _ _ (keeps_gradient_handler _ _ _) Hgh)
    as (_ & Hc2 & _).
  assert (Hsize : configured_gradient_accumulation w2 = size).
  { unfold size, configured_gradient_accumulation. by rewrite Hc2, Hc1. }
  apply assemble_Ok in Hrun as (Hfour & Hmodel & Hcriterion & _ & _ & _ & Hcalls).
  rewrite Hsize in Hfour, Hcalls.
  split; [exact Hfour|]. split; [exact Hmodel|]. split; [exact Hcriterion|].
  rewrite Hcalls. unfold tail_calls. by rewrite <- app_assoc.
Qed.


End Properties.

(** * The claims at work on the sample process *)

Import Sample.

(** fp16 in naive mode with a clip norm of 0.5: the model is converted,
    handed a data-parallel gradient handler instead of the DDP wrapper, and
    then the configuration is refused at line 367. *)
Example naive_fp16_with_clip :
  let w :=
    process {[ "fp16" := VRef 1%positive; "clip_grad_norm" := VFloat (1 # 2) ]}
      [(1%positive, {[ "mode" := VEnum "AMP_TYPE" "NAIVE" ]})] true false in
  snd (run w) = Raise (ConfigException clip_with_naive_message)
  /\ calls (fst (run w))
     = [Call_model_to_device Net;
        Call_sync_model_param_in_dp Net;
        Call_convert_to_amp Net SGD Loss (VEnum "AMP_TYPE" "NAIVE")
          (VRef 2%positive);
        Call_build_gradient_handler (VRef 3%positive) (AmpModel Net)
          (AmpOptimizer SGD)]
  /\ heap (fst (run w)) !! 3%positive
     = Some {[ "type" := VStr "DataParallelGradientHandler" ]}
  /\ heap (fst (run w)) !! 1%positive
     = Some {[ "mode" := VEnum "AMP_TYPE" "NAIVE" ]}
  /\ heap (fst (run w)) !! 2%positive = Some ∅.
Proof. vm_compute. repeat split; reflexivity. Qed.

(** An empty configuration on a single process: nothing is converted, the
    optimizer is wrapped and the Engine gets no handlers and the default
    clip norm. *)
Example plain_run :
  snd (run (process ∅ [] false false))
  = Ok ({| engine_model := Net; engine_optimizer := Wrapped SGD;
           engine_criterion := Loss; engine_gradient_handlers := None;
           engine_clip_grad_norm := VFloat 0 |},
        None, None, None).
Proof. vm_compute. reflexivity. Qed.

(** Gradient accumulation over two listed handlers: both are built first,
    in the order of the list, and wrapped afterwards. *)
Example accumulation_over_listed_handlers :
  let w :=
    process
      {[ "gradient_handler" := VList [VRef 1%positive; VRef 2%positive];
         "gradient_accumulation" := VInt 4 ]}
      [(1%positive, {[ "type" := VStr "DataParallelGradientHandler" ]});
       (2%positive, {[ "type" := VStr "SequenceParallelGradientHandler" ]})]
      true false in
  match snd (run w) with
  | Ok (engine, _, _, _) =>
      engine_gradient_handlers engine
      = Some [AccumulatingHandler (Handler (VRef 1%positive) Net SGD);
              AccumulatingHandler (Handler (VRef 2%positive) Net SGD)]
      /\ engine_optimizer engine = Accumulating (Wrapped SGD)
  | Raise _ => False
  end.
Proof. vm_compute. split; reflexivity. Qed.



(** C3, as the spec has it, fails: with a zero section and a positive
    [clip_grad_norm], [initialize] raises the [ConfigException] of line 364
    after [convert_to_zero] has been called. *)
Lemma conversion_before_clip_refusal :
  snd (run zero_and_clip) = Raise (ConfigException clip_with_zero_message)
  /\ existsb is_conversion_call (calls (fst (run zero_and_clip))) = true.
Proof. vm_compute. split; reflexivity. Qed.

Lemma config_exception_sites_witness :
  exists new,
    calls (fst (run fp16_and_zero)) = calls fp16_and_zero ++ new
    /\ existsb is_Engine_call new = false
    /\ existsb is_conversion_call new = false.
Proof.
  destruct (config_exception_sites (C := sample) Net SGD Loss None None None
              true fp16_and_zero (fst (run fp16_and_zero))
              fp16_and_zero_message)
    as (new & Hnew & HEngine & Hconversion); [vm_compute; reflexivity|].
  exists new. auto.
Defined.

Lemma sharded_optimizer_gets_the_zero_handler_witness :
  exists w2 handler,
    gradient_handler (ZeroModel Net) (ZeroOptimizer (VInt 2) SGD) VNone
      (converted zero_only)
    = (w2, Ok (ZeroModel Net, Some [handler])).
Proof.
  destruct (sharded_optimizer_gets_the_zero_handler (C := sample) Net SGD
              Loss None None None true zero_only
              (converted zero_only)
              VNone (VRef 1%positive) VNone (ZeroModel Net)
              (ZeroOptimizer (VInt 2) SGD) Loss)
    as (w2 & spec & Hrun & _); [vm_compute; reflexivity..|].
  by do 2 eexists.
Defined.

Lemma data_parallel_alone_wraps_the_model_witness :
  gradient_handler (AmpModel Net) (AmpOptimizer SGD)
    (VEnum "AMP_TYPE" "TORCH") (converted fp16_only)
  = (add_call (Call_DDP (AmpModel Net))
       (converted fp16_only),
     Ok (DDPModel (AmpModel Net), None)).
Proof.
  apply (data_parallel_alone_wraps_the_model (C := sample) Net SGD Loss None
           None None true fp16_only
           (converted fp16_only)
           (VRef 1%positive) VNone (VEnum "AMP_TYPE" "TORCH") (AmpModel Net)
           (AmpOptimizer SGD) (AmpLoss Loss));
    vm_compute; reflexivity.
Defined.

Lemma data_parallel_with_pipeline_gets_a_handler_witness :
  exists w2 handler,
    gradient_handler Net SGD VNone
      (converted with_pipeline)
    = (w2, Ok (Net, Some [handler])).
Proof.
  destruct (data_parallel_with_pipeline_gets_a_handler (C := sample) Net SGD
              Loss None None None true with_pipeline
              (converted with_pipeline)
              VNone VNone VNone Net SGD Loss)
    as (w2 & spec & Hrun & _); [vm_compute; reflexivity..|].
  by do 2 eexists.
Defined.



Lemma initialize_leaves_the_configuration_witness :
  section_entry (fst (run fp16_only)) "fp16" "mode"
  = Some (VEnum "AMP_TYPE" "TORCH").
Proof.
  destruct (initialize_leaves_the_configuration (C := sample) Net SGD Loss
              None None None true fp16_only) as (_ & _ & Hmode & _).
  apply Hmode. vm_compute; reflexivity.
Defined.

Lemma clip_check_needs_a_positive_clip_witness :
  exists w' engine train_dataloader lr_scheduler,
    run zero_only = (w', Ok (engine, train_dataloader, None, lr_scheduler))
    /\ engine_clip_grad_norm engine = VFloat 0.
Proof.
  destruct (clip_check_needs_a_positive_clip (C := sample) Net SGD Loss None
              None None true zero_only)
    as (Habsent & _ & _ & Hengine); [left; vm_compute; reflexivity|].
  destruct Hengine as (w' & engine & train_dataloader & lr_scheduler & Hrun
                       & Hclip); [vm_compute; reflexivity..|].
  rewrite Habsent in Hclip by (vm_compute; reflexivity).
  by exists w', engine, train_dataloader, lr_scheduler.
Defined.

(** * [launch] and its wrappers: properties *)

Section LaunchProperties.

Variable int : string -> option Z.

Lemma environ_int_inl st key n :
  environ_int int st key = inl n ->
  exists text, environ st !! key = Some text /\ int text = Some n.
Proof.
  unfold environ_int. destruct (environ st !! key) as [text|]; [|done].
  destruct (int text) as [m|] eqn:Hm; [|done].
  intros [= <-]. by exists text.
Qed.


(** X14.  A wrapper that finds a variable missing from the environment, or
    not a numeral, has changed nothing: the exception is the [KeyError] or
    the [ValueError], [gpc.verbose] is what it was and no call has been made
    on [gpc].  The first variable it reads is the rank. *)
Theorem wrappers_read_before_they_write config host port backend seed
    verbose st :
  (forall wrapper,
     wrapper = launch_from_slurm int \/ wrapper = launch_from_openmpi int
     \/ wrapper = launch_from_torch int ->
     match snd (wrapper config host port backend seed verbose st) with
     | Some (Environ_KeyError _) | Some (ValueError _) =>
         fst (wrapper config host port backend seed verbose st) = st
     | _ => True
     end)
  /\ (environ st !! "SLURM_PROCID" = None ->
      launch_from_slurm int config host port backend seed verbose st
      = (st, Some (Environ_KeyError "SLURM_PROCID")))
  /\ (environ st !! "OMPI_COMM_WORLD_RANK" = None ->
      launch_from_openmpi int config host port backend seed verbose st
      = (st, Some (Environ_KeyError "OMPI_COMM_WORLD_RANK")))
  /\ (environ st !! "RANK" = None ->
      launch_from_torch int config host port backend seed verbose st
      = (st, Some (Environ_KeyError "RANK"))).
Proof.
  assert (Hlaunch : forall rank world_size local_rank,
            match snd (launch config rank world_size host port backend
                         local_rank seed verbose st) with
            | Some (Environ_KeyError _) | Some (ValueError _) =>
                fst (launch config rank world_size host port backend
                       local_rank seed verbose st) = st
            | _ => True
            end).
  { intros. unfold launch. by destruct config. }
  split; [|repeat split].
  - intros wrapper [-> | [-> | ->]];
      unfold launch_from_slurm, launch_from_openmpi, launch_from_torch;
      repeat match goal with
             | |- context [environ_int int st ?key] =>
                 destruct (environ_int int st key) as [?|[]] eqn:?; simpl;
                 try done
             end;
      try apply Hlaunch;
      match goal with
      | H : environ_int _ _ _ = inr (AssertionError _) |- _ =>
          revert H; unfold environ_int;
          destruct (environ st !! _) as [text|]; [|done];
          by destruct (int text)
      end.
  - intros H. unfold launch_from_slurm, environ_int. by rewrite H.
  - intros H. unfold launch_from_openmpi, environ_int. by rewrite H.
  - intros H. unfold launch_from_torch, environ_int. by rewrite H.
Qed.

(** X15.  [launch_from_openmpi] and [launch_from_torch] are one launcher
    under two sets of names: in an environment where the three variables of
    the one hold the texts of the three of the other, they end alike. *)
Theorem openmpi_and_torch_agree config host port backend seed verbose st
    rank local_rank world_size :
  environ st !! "OMPI_COMM_WORLD_RANK" = Some rank ->
  environ st !! "RANK" = Some rank ->
  environ st !! "OMPI_COMM_WORLD_LOCAL_RANK" = Some local_rank ->
  environ st !! "LOCAL_RANK" = Some local_rank ->
  environ st !! "OMPI_COMM_WORLD_SIZE" = Some world_size ->
  environ st !! "WORLD_SIZE" = Some world_size ->
  launch_from_openmpi int config host port backend seed verbose st
  = launch_from_torch int config host port backend seed verbose st.
Proof.
  intros H1 H2 H3 H4 H5 H6.
  unfold launch_from_openmpi, launch_from_torch, environ_int.
  by rewrite H1, H2, H3, H4, H5, H6.
Qed.

(** X16.  [launch_from_slurm] hands no local rank on: where CUDA is
    available it has the device chosen by [gpc.set_device(None)], and in
    all else it does what [launch_from_torch] does on the same rank and
    world size. *)
Theorem slurm_sets_the_device_by_itself config host port backend seed
    verbose st rank world_size :
  environ_int int st "SLURM_PROCID" = inl rank ->
  environ_int int st "SLURM_NPROCS" = inl world_size ->
  environ_int int st "RANK" = inl rank ->
  environ_int int st "WORLD_SIZE" = inl world_size ->
  is_Some (environ st !! "LOCAL_RANK" ≫= int) ->
  let slurm := launch_from_slurm int config host port backend seed verbose st in
  let torch := launch_from_torch int config host port backend seed verbose st in
  snd slurm = snd torch
  /\ launch_verbose (fst slurm) = launch_verbose (fst torch)
  /\ (cuda_is_available st = false -> slurm = torch)
  /\ (cuda_is_available st = true ->
      snd slurm = None ->
      exists before,
        gpc_calls (fst slurm)
        = before ++ [Gpc_set_device None; Gpc_set_seed seed]).
Proof.
  intros Hrank Hsize Hrank' Hsize' [local_rank Hlocal] slurm torch.
  assert (Hlocal' : environ_int int st "LOCAL_RANK" = inl local_rank).
  { unfold environ_int. destruct (environ st !! "LOCAL_RANK") as [text|];
      [|done]. simpl in Hlocal. by rewrite Hlocal. }
  subst slurm torch. unfold launch_from_slurm, launch_from_torch.
  rewrite Hrank, Hsize, Hrank', Hsize', Hlocal'. unfold launch.
  destruct (config_to_load config) as [config'|e]; simpl; [|done].
  destruct (cuda_is_available st); simpl; repeat split; try done.
  intros _ _. eexists (_ ++ [_; _; _]). by rewrite <- app_assoc.
Qed.

End LaunchProperties.

(** * The fused layer norm function: properties *)

Section LayerNormProperties.

Context {T : Tensors}.

(** X17.  With the extension imported, [backward] on the context that
    [forward] leaves hands the backward kernel what the forward kernel was
    given and gave: the contiguous input, weight and bias, the mean and the
    inverse variance it computed, the same shape and epsilon; and it answers
    with a gradient for each of input, weight and bias and [None] for the
    two other arguments of [forward].  What the context held before does not
    matter. *)
Theorem backward_after_forward (c : ctx) input weight bias normalized_shape
    eps grad_output :
  let '(output, mean, invvar) :=
    forward_affine (contiguous input) normalized_shape (contiguous weight)
      (contiguous bias) eps in
  let '(grad_input, grad_weight, grad_bias) :=
    backward_affine (contiguous grad_output) mean invvar (contiguous input)
      normalized_shape (contiguous weight) (contiguous bias) eps in
  snd (forward true c input weight bias normalized_shape eps) = inl output
  /\ backward true
       (fst (forward true c input weight bias normalized_shape eps))
       grad_output
     = inl (Some grad_input, Some grad_weight, Some grad_bias, None, None).
Proof.
  unfold forward, backward.
  destruct (forward_affine _ _ _ _ _) as [[output mean] invvar]. simpl.
  by destruct (backward_affine _ _ _ _ _ _ _ _) as [[grad_input grad_weight]
                                                      grad_bias].
Qed.

(** X18.  [backward] answers with gradients exactly on a context as
    [forward] leaves one: the extension imported, five saved tensors, and
    the shape and the epsilon assigned.  On any other it raises. *)
Theorem backward_needs_a_forward imported (c : ctx) grad_output :
  (exists gradients, backward imported c grad_output = inl gradients)
  <-> imported = true
      /\ length (saved_tensors c) = 5%nat
      /\ is_Some (ctx_normalized_shape c)
      /\ is_Some (ctx_eps c).
Proof.
  unfold backward. split.
  - intros [gradients Hrun].
    destruct (saved_tensors c) as [|t1 [|t2 [|t3 [|t4 [|t5 [|t6 rest]]]]]];
      try done.
    destruct imported; [|done].
    destruct (ctx_normalized_shape c); [|done].
    by destruct (ctx_eps c).
  - intros (-> & Hlength & [shape ->] & [eps ->]).
    destruct (saved_tensors c) as [|t1 [|t2 [|t3 [|t4 [|t5 [|t6 rest]]]]]];
      try done.
    destruct (backward_affine _ _ _ _ _ _ _ _) as [[grad_input grad_weight]
                                                     grad_bias].
    by eexists.
Qed.

End LayerNormProperties.

(** * The further properties at work on the sample processes *)

Import SampleProcesses.


Lemma naive_amp_gets_a_handler_witness :
  exists w2 handler,
    gradient_handler (AmpModel Net) (AmpOptimizer SGD)
      (VEnum "AMP_TYPE" "NAIVE") (converted naive_fp16)
    = (w2, Ok (AmpModel Net, Some [handler])).
Proof.
  destruct (naive_amp_gets_a_handler (C := sample) Net SGD Loss true
              naive_fp16 (converted naive_fp16) (VRef 1%positive) VNone
              (VEnum "AMP_TYPE" "NAIVE") (AmpModel Net) (AmpOptimizer SGD)
              (AmpLoss Loss))
    as (w2 & spec & Hrun & _); [vm_compute; reflexivity..|].
  by do 2 eexists.
Defined.

Lemma no_data_parallel_no_handler_witness :
  gradient_handler Net SGD VNone (converted single_process)
  = (converted single_process, Ok (Net, None)).
Proof.
  apply (no_data_parallel_no_handler (C := sample) Net SGD Loss true
           single_process (converted single_process) VNone VNone VNone Net
           SGD Loss);
    vm_compute; reflexivity.
Defined.

Lemma amp_converter_gets_a_copy_witness :
  exists w1 cfg_,
    heap w1 !! cfg_ = Some ∅
    /\ heap w1 !! 1%positive = Some {[ "mode" := VEnum "AMP_TYPE" "TORCH" ]}.
Proof.
  destruct (amp_converter_gets_a_copy (C := sample) Net SGD Loss true
              fp16_only 1%positive {[ "mode" := VEnum "AMP_TYPE" "TORCH" ]}
              (VEnum "AMP_TYPE" "TORCH"))
    as (w1 & cfg_ & _ & _ & Hheap & Hsection & _);
    [vm_compute; reflexivity..|].
  exists w1, cfg_. split; [|exact Hsection].
  rewrite Hheap. apply lookup_insert_eq.
Defined.

Lemma zero_converter_gets_a_copy_witness :
  exists w1 cfg_,
    heap w1 !! cfg_ = Some ∅
    /\ heap w1 !! 1%positive = Some {[ "level" := VInt 2 ]}.
Proof.
  destruct (zero_converter_gets_a_copy (C := sample) Net SGD Loss true
              zero_only 1%positive {[ "level" := VInt 2 ]} (VInt 2))
    as (w1 & cfg_ & _ & _ & Hheap & Hsection & _);
    [vm_compute; reflexivity..|].
  exists w1, cfg_. split; [|exact Hsection].
  rewrite Hheap. apply lookup_insert_eq.
Defined.

Lemma zero_entry_without_level_witness :
  exists w',
    run zero_as_a_number = (w', Raise (AttributeError "level"))
    /\ calls w' = [Call_model_to_device Net].
Proof.
  destruct (zero_entry_without_level (C := sample) Net SGD Loss None None None
              true zero_as_a_number)
    as (w' & Hrun & _ & Hcalls);
    [eexists; vm_compute; reflexivity|vm_compute; reflexivity|].
  by exists w'.
Defined.

Lemma fp16_entry_without_mode_witness :
  exists w',
    run fp16_without_mode = (w', Raise (AttributeError "mode"))
    /\ calls w' = [Call_model_to_device Net; Call_sync_model_param_in_dp Net].
Proof.
  destruct (fp16_entry_without_mode (C := sample) Net SGD Loss None None None
              true fp16_without_mode)
    as (w' & Hrun & _ & Hcalls); [vm_compute; reflexivity..|].
  by exists w'.
Defined.

Lemma what_the_engine_is_made_of_witness :
  calls (fst (run accumulating))
  = [Call_model_to_device Net;
     Call_sync_model_param_in_dp Net;
     Call_DDP Net;
     Call_ColossalaiOptimizer SGD;
     Call_accumulate_gradient (DDPModel Net) (Wrapped SGD) None (VInt 4) None
       None;
     Call_Engine accumulating_engine].
Proof.
  destruct (what_the_engine_is_made_of (C := sample) Net SGD Loss None None
              None true accumulating (converted accumulating) VNone VNone
              VNone Net SGD Loss
              accumulating_under_DDP
              (DDPModel Net) None (fst (run accumulating))
              accumulating_engine
              None None None)
    as (_ & _ & _ & Hcalls); [vm_compute; reflexivity..|].
  rewrite Hcalls. vm_compute. reflexivity.
Defined.


Import SampleLaunch.

Lemma wrappers_read_before_they_write_witness :
  fst (launch_from_torch sample_int (Of_dict ∅) "localhost" 29500 "nccl" 1024
         true bad_rank)
  = bad_rank.
Proof.
  destruct (wrappers_read_before_they_write sample_int (Of_dict ∅)
              "localhost" 29500 "nccl" 1024 true bad_rank) as (Hsame & _).
  specialize (Hsame (launch_from_torch sample_int)
                (or_intror (or_intror eq_refl))).
  assert (Hraised :
            snd (launch_from_torch sample_int (Of_dict ∅) "localhost" 29500
                   "nccl" 1024 true bad_rank)
            = Some (ValueError "one")) by (vm_compute; reflexivity).
  rewrite Hraised in Hsame. exact Hsame.
Defined.

Lemma openmpi_and_torch_agree_witness :
  launch_from_openmpi sample_int (Of_dict ∅) "localhost" 29500 "nccl" 1024
    true torch_and_openmpi
  = launch_from_torch sample_int (Of_dict ∅) "localhost" 29500 "nccl" 1024
      true torch_and_openmpi.
Proof.
  apply (openmpi_and_torch_agree sample_int (Of_dict ∅) "localhost" 29500
           "nccl" 1024 true torch_and_openmpi "1" "1" "4");
    vm_compute; reflexivity.
Defined.

Lemma slurm_sets_the_device_by_itself_witness :
  exists before,
    gpc_calls
      (fst (launch_from_slurm sample_int (Of_dict ∅) "localhost" 29500 "nccl"
              1024 true slurm_and_torch))
    = before ++ [Gpc_set_device None; Gpc_set_seed 1024].
Proof.
  destruct (slurm_sets_the_device_by_itself sample_int (Of_dict ∅)
              "localhost" 29500 "nccl" 1024 true slurm_and_torch 1 4)
    as (_ & _ & _ & Hdevice);
    [vm_compute; reflexivity..|eexists; vm_compute; reflexivity|].
  apply Hdevice; vm_compute; reflexivity.
Defined.
